(** * CYBREIGN AI relay bot (bot.py): webhook pipeline, shallow embedding

    The development follows [bot.py]:
    - [send_telegram_message]  (the outbound messenger),
    - [call_gemini] with its inner [find_text]  (the generation client),
    - [telegram_webhook]  (normaliser and orchestrator).

    Python values that occur in the handler are JSON values; Python [None]
    and JSON [null] are the same value.  Python strings are sequences of
    Unicode code points, [len] counts code points.  Dictionaries keep
    insertion order, so they are association lists here (Python keeps keys
    distinct; nothing below needs that, and every concrete document used
    has distinct keys). *)

From Stdlib Require Import List ZArith NArith Bool String Ascii Lia.
From Stdlib Require Import DecimalString SpecFloat.
Import ListNotations.

#[local] Set Warnings "-notation-for-abbreviation,-register-all".

(** ** Python strings *)

Module PyStr.

Definition char := N.
Definition str := list char.

(** An ASCII literal of the source. *)
Definition lit (s : string) : str :=
  map N_of_ascii (list_ascii_of_string s).

Fixpoint eqb (a b : str) : bool :=
  match a, b with
  | [], [] => true
  | c :: a', d :: b' => N.eqb c d && eqb a' b'
  | _, _ => false
  end.

(** [s.startswith(p)] *)
Fixpoint startswith (s p : str) : bool :=
  match p with
  | [] => true
  | c :: p' =>
      match s with
      | [] => false
      | d :: s' => N.eqb c d && startswith s' p'
      end
  end.

(** [s.endswith(p)], through the reversed strings. *)
Definition endswith (s p : str) : bool := startswith (rev s) (rev p).

(** [s[:n]] for a non-negative literal [n]. *)
Definition upto (n : nat) (s : str) : str := firstn n s.

(** [bool(s)] *)
Definition nonempty (s : str) : bool :=
  match s with [] => false | _ :: _ => true end.

(** [sep.join(parts)] *)
Fixpoint join (sep : str) (parts : list str) : str :=
  match parts with
  | [] => []
  | [p] => p
  | p :: rest => p ++ sep ++ join sep rest
  end.

End PyStr.

Notation str := PyStr.str.
Notation lit := PyStr.lit.

(** ** JSON documents, which are also the Python values of the handler *)

#[local] Unset Elimination Schemes.

Inductive json : Type :=
| JNull
| JBool (b : bool)
| JInt (z : Z)
| JFloat (f : spec_float)
| JStr (s : str)
| JList (items : list json)
| JDict (fields : list (str * json)).

#[local] Set Elimination Schemes.

Section json_induction.
Variable P : json -> Prop.
Hypothesis Hnull : P JNull.
Hypothesis Hbool : forall b, P (JBool b).
Hypothesis Hint : forall z, P (JInt z).
Hypothesis Hfloat : forall f, P (JFloat f).
Hypothesis Hstr : forall s, P (JStr s).
Hypothesis Hlist : forall items, Forall P items -> P (JList items).
Hypothesis Hdict :
  forall fields, Forall (fun kv => P (snd kv)) fields -> P (JDict fields).

Fixpoint json_nested_ind (v : json) : P v :=
  match v with
  | JNull => Hnull
  | JBool b => Hbool b
  | JInt z => Hint z
  | JFloat f => Hfloat f
  | JStr s => Hstr s
  | JList items =>
      Hlist items
        ((fix all (l : list json) : Forall P l :=
            match l with
            | [] => Forall_nil P
            | x :: r => Forall_cons x (json_nested_ind x) (all r)
            end) items)
  | JDict fields =>
      Hdict fields
        ((fix all (l : list (str * json)) : Forall (fun kv => P (snd kv)) l :=
            match l with
            | [] => Forall_nil _
            | kv :: r =>
                Forall_cons (P := fun kv => P (snd kv)) kv
                  (json_nested_ind (snd kv)) (all r)
            end) fields)
  end.
End json_induction.

(** [bool(v)]: Python truthiness. *)
Definition truthy (v : json) : bool :=
  match v with
  | JNull => false
  | JBool b => b
  | JInt z => negb (Z.eqb z 0)
  | JFloat (S754_zero _) => false
  | JFloat _ => true
  | JStr s => PyStr.nonempty s
  | JList items => match items with [] => false | _ => true end
  | JDict fields => match fields with [] => false | _ => true end
  end.

Definition is_dict (v : json) : bool :=
  match v with JDict _ => true | _ => false end.

(** [d.get(k)] on the fields of a dict: [None] stands for Python's [None]
    default; the caller maps it to [JNull]. *)
Fixpoint dict_lookup (k : str) (fields : list (str * json)) : option json :=
  match fields with
  | [] => None
  | (k', v) :: rest => if PyStr.eqb k' k then Some v else dict_lookup k rest
  end.

(** ** The extractor [find_text] (bot.py, lines 65-78) *)

(** [if res:] on a value that is [None] or a string. *)
Definition res_truthy (res : option str) : bool :=
  match res with
  | Some s => PyStr.nonempty s
  | None => false
  end.

(** The two [for] loops of [find_text] have the same body:
    [res = find_text(x); if res: return res]. *)
Definition first_truthy {A : Type} (find : A -> option str)
  : list A -> option str :=
  fix loop (l : list A) : option str :=
    match l with
    | [] => None
    | x :: rest =>
        let res := find x in
        if res_truthy res then res else loop rest
    end.

Fixpoint find_text (obj : json) : option str :=
  match obj with
  | JStr s => Some s
  | JDict fields => first_truthy (fun kv => find_text (snd kv)) fields
  | JList items => first_truthy find_text items
  | _ => None
  end.

(** All scalar string values of a document, in depth-first order: object
    values in field order, sequence elements in order.  This follows the
    words of the specification and is what [find_text] is compared with. *)
Fixpoint strings_dfs (d : json) : list str :=
  match d with
  | JStr s => [s]
  | JList items => flat_map strings_dfs items
  | JDict fields => flat_map (fun kv => strings_dfs (snd kv)) fields
  | _ => []
  end.

Definition first_string (d : json) : option str := hd_error (strings_dfs d).

Definition first_nonempty_string (d : json) : option str :=
  hd_error (filter PyStr.nonempty (strings_dfs d)).

(** What one call of the search has to do with the strings [l] below the
    value it is called on: a truthy result is the first non-empty one of
    them, any other result means there is none. *)
Definition agrees (res : option str) (l : list str) : Prop :=
  (res_truthy res = true -> res = hd_error (filter PyStr.nonempty l))
  /\ (res_truthy res = false -> filter PyStr.nonempty l = []).

(** ** Exceptions, outcomes and the Python runtime *)

(** A Python exception: its class name and [str(e)]. *)
Record exn : Type := Exn { exn_class : string; exn_str : str }.

Inductive outcome (A : Type) : Type :=
| Ret (a : A)
| Raise (e : exn).
Arguments Ret {A} a.
Arguments Raise {A} e.

(** [requests.post(url, headers=..., json=..., timeout=...)] *)
Record Request : Type := {
  req_url : str;
  req_headers : list (str * str);
  req_json : json;
  req_timeout : Z
}.

(** A [requests.Response], as far as bot.py looks at it: the methods
    [raise_for_status()] and [json()] may raise, [ok] and [text] are
    attributes. *)
Record Response : Type := {
  raise_for_status : outcome unit;
  resp_json : outcome json;
  resp_ok : bool;
  resp_text : str
}.

(** What lies outside bot.py: the two environment variables read at start-up,
    the network behind [requests.post] (which may raise instead of returning
    a response), and Python's [repr] of floats and of strings. *)
Record Env : Type := {
  TELEGRAM_TOKEN : str;
  GEMINI_API_KEY : str;
  requests_post : Request -> outcome Response;
  float_repr : spec_float -> str;
  str_repr : str -> str
}.

(** ** Serialisation: [json.dumps(v)] and [str(v)] *)

Definition int_repr (z : Z) : str := lit (NilZero.string_of_int (Z.to_int z)).

Definition hex_digit (n : N) : PyStr.char :=
  if (n <? 10)%N then (48 + n)%N else (87 + n)%N.

Definition hex4 (n : N) : str :=
  [ hex_digit ((n / 4096) mod 16)%N; hex_digit ((n / 256) mod 16)%N;
    hex_digit ((n / 16) mod 16)%N; hex_digit (n mod 16)%N ].

(** A backslash, the letter u and four hexadecimal digits. *)
Definition u_escape (n : N) : str := [92; 117]%N ++ hex4 n.

(** [json.dumps] escapes with [ensure_ascii=True]: the quote, the backslash,
    the five short escapes, and everything outside space..tilde as one or
    two (surrogate pair) u-escapes. *)
Definition json_escape_char (c : PyStr.char) : str :=
  if (c =? 34)%N then [92; 34]%N
  else if (c =? 92)%N then [92; 92]%N
  else if (c =? 8)%N then [92; 98]%N
  else if (c =? 12)%N then [92; 102]%N
  else if (c =? 10)%N then [92; 110]%N
  else if (c =? 13)%N then [92; 114]%N
  else if (c =? 9)%N then [92; 116]%N
  else if ((32 <=? c) && (c <=? 126))%N then [c]
  else if (c <? 65536)%N then u_escape c
  else
    let n := (c - 65536)%N in
    u_escape (N.lor 55296 (N.land (N.shiftr n 10) 1023))
      ++ u_escape (N.lor 56320 (N.land n 1023)).

Definition json_quote (s : str) : str :=
  [34%N] ++ flat_map json_escape_char s ++ [34%N].

Definition float_json (env : Env) (f : spec_float) : str :=
  match f with
  | S754_nan => lit "NaN"
  | S754_infinity false => lit "Infinity"
  | S754_infinity true => lit "-Infinity"
  | _ => float_repr env f
  end.

(** [json.dumps(v)] with the default separators. *)
Fixpoint json_dumps (env : Env) (v : json) : str :=
  match v with
  | JNull => lit "null"
  | JBool true => lit "true"
  | JBool false => lit "false"
  | JInt z => int_repr z
  | JFloat f => float_json env f
  | JStr s => json_quote s
  | JList items =>
      lit "[" ++ PyStr.join (lit ", ") (map (json_dumps env) items) ++ lit "]"
  | JDict fields =>
      lit "{"
        ++ PyStr.join (lit ", ")
             (map (fun kv =>
                     json_quote (fst kv) ++ lit ": " ++ json_dumps env (snd kv))
                fields)
        ++ lit "}"
  end.

(** [repr(v)] *)
Fixpoint py_repr (env : Env) (v : json) : str :=
  match v with
  | JNull => lit "None"
  | JBool true => lit "True"
  | JBool false => lit "False"
  | JInt z => int_repr z
  | JFloat f => float_repr env f
  | JStr s => str_repr env s
  | JList items =>
      lit "[" ++ PyStr.join (lit ", ") (map (py_repr env) items) ++ lit "]"
  | JDict fields =>
      lit "{"
        ++ PyStr.join (lit ", ")
             (map (fun kv =>
                     str_repr env (fst kv) ++ lit ": " ++ py_repr env (snd kv))
                fields)
        ++ lit "}"
  end.

(** [str(v)]: a string is itself, everything else is its [repr]. *)
Definition py_str (env : Env) (v : json) : str :=
  match v with
  | JStr s => s
  | _ => py_repr env v
  end.

(** ** The effects of a request: raised exceptions and outbound HTTP calls *)

(** A computation appends the HTTP calls it makes to a log and either
    returns or raises. *)
Definition M (A : Type) : Type := list Request -> outcome A * list Request.

Definition ret {A : Type} (a : A) : M A := fun log => (Ret a, log).

Definition bind {A B : Type} (m : M A) (k : A -> M B) : M B :=
  fun log =>
    match m log with
    | (Ret a, log') => k a log'
    | (Raise e, log') => (Raise e, log')
    end.

(** A pure Python operation that may raise. *)
Definition lift {A : Type} (o : outcome A) : M A := fun log => (o, log).

(** [try: m  except Exception as e: handler(e)] *)
Definition try_except {A : Type} (m : M A) (handler : exn -> M A) : M A :=
  fun log =>
    match m log with
    | (Ret a, log') => (Ret a, log')
    | (Raise e, log') => handler e log'
    end.

Definition post (env : Env) (req : Request) : M Response :=
  fun log => (requests_post env req, log ++ [req]).

Definition run {A : Type} (m : M A) : outcome A * list Request := m [].

Declare Scope py_scope.
Delimit Scope py_scope with py.
Notation "x <- m ;; k" := (bind m (fun x => k))
  (at level 61, m at next level, right associativity) : py_scope.
Notation "' pat <- m ;; k" := (bind m (fun x => match x with pat => k end))
  (at level 61, pat pattern, m at next level, right associativity) : py_scope.
Open Scope py_scope.

(** ** Attribute and item access of the handler on untyped values *)

(** [type(v).__name__] *)
Definition type_name (v : json) : str :=
  match v with
  | JNull => lit "NoneType"
  | JBool _ => lit "bool"
  | JInt _ => lit "int"
  | JFloat _ => lit "float"
  | JStr _ => lit "str"
  | JList _ => lit "list"
  | JDict _ => lit "dict"
  end.

(** The exceptions of the handler, with the wording of CPython 3.11.  The
    message of a [KeyError] is the [repr] of the key, which for the plain
    keys of bot.py is the key between single quotes. *)
Definition AttributeError (v : json) (attr : string) : exn :=
  Exn "AttributeError"
    ([39%N] ++ type_name v ++ lit "' object has no attribute '"
       ++ lit attr ++ [39%N]).

Definition TypeError (v : json) : exn :=
  Exn "TypeError"
    match v with
    | JStr _ => lit "string indices must be integers, not 'str'"
    | JList _ => lit "list indices must be integers or slices, not str"
    | _ => [39%N] ++ type_name v ++ lit "' object is not subscriptable"
    end.

Definition KeyError (k : str) : exn :=
  Exn "KeyError" ([39%N] ++ k ++ [39%N]).

(** [obj.get(k, default)]: only a dict has [get]. *)
Definition py_get (obj : json) (k : str) (default : json) : outcome json :=
  match obj with
  | JDict fields =>
      Ret (match dict_lookup k fields with Some v => v | None => default end)
  | _ => Raise (AttributeError obj "get")
  end.

(** [obj[k]] for a string [k]. *)
Definition py_getitem (obj : json) (k : str) : outcome json :=
  match obj with
  | JDict fields =>
      match dict_lookup k fields with
      | Some v => Ret v
      | None => Raise (KeyError k)
      end
  | _ => Raise (TypeError obj)
  end.

(** [obj.startswith(p)]: only a string has [startswith]. *)
Definition py_startswith (obj : json) (p : str) : outcome bool :=
  match obj with
  | JStr s => Ret (PyStr.startswith s p)
  | _ => Raise (AttributeError obj "startswith")
  end.

(** ** [send_telegram_message] (bot.py, lines 27-37) *)

Definition BASE_TELEGRAM (env : Env) : str :=
  lit "https://api.telegram.org/bot" ++ TELEGRAM_TOKEN env.

Definition send_payload (chat_id : json) (text : str)
    (reply_to_message_id : json) : list (str * json) :=
  [ (lit "chat_id", chat_id);
    (lit "text", JStr text);
    (lit "parse_mode", JStr (lit "Markdown")) ]
  ++ (if truthy reply_to_message_id
      then [ (lit "reply_to_message_id", reply_to_message_id) ]
      else []).

Definition send_request (env : Env) (chat_id : json) (text : str)
    (reply_to_message_id : json) : Request :=
  {| req_url := BASE_TELEGRAM env ++ lit "/sendMessage";
     req_headers := [];
     req_json := JDict (send_payload chat_id text reply_to_message_id);
     req_timeout := 20 |}.

(** The default [reply_to_message_id=None] is the argument [JNull]. *)
Definition send_telegram_message (env : Env) (chat_id : json) (text : str)
    (reply_to_message_id : json) : M (bool * str) :=
  r <- post env (send_request env chat_id text reply_to_message_id) ;;
  ret (resp_ok r, resp_text r).

(** ** [call_gemini] (bot.py, lines 40-85) *)

Definition gemini_endpoint : str :=
  lit "https://generativelanguage.googleapis.com/v1beta/models/gemini-3-pro-preview:generateContent".

Definition gemini_request (env : Env) (prompt_text : str) : Request :=
  {| req_url := gemini_endpoint;
     req_headers :=
       [ (lit "x-goog-api-key", GEMINI_API_KEY env);
         (lit "Content-Type", lit "application/json") ];
     req_json :=
       JDict [ (lit "contents",
                JList [ JDict [ (lit "parts",
                                 JList [ JDict [ (lit "text",
                                                  JStr prompt_text) ] ]) ] ]) ];
     req_timeout := 30 |}.

(** [maybe or alt] where [maybe] is [None] or a string. *)
Definition or_else (maybe : option str) (alt : str) : str :=
  match maybe with
  | Some s => if PyStr.nonempty s then s else alt
  | None => alt
  end.

(** Lines 62-83: the text taken from the parsed response [data]. *)
Definition response_text_of (env : Env) (data : json) : str :=
  if is_dict data then
    let maybe := find_text data in
    or_else maybe (PyStr.upto 1900 (json_dumps env data))
  else
    PyStr.upto 1900 (py_str env data).

Definition error_marker : str := lit "[error calling Gemini] ".

Definition call_gemini (env : Env) (prompt_text : str) : M str :=
  try_except
    (r <- post env (gemini_request env prompt_text) ;;
     _ <- lift (raise_for_status r) ;;
     data <- lift (resp_json r) ;;
     ret (response_text_of env data))
    (fun e => ret (error_marker ++ exn_str e)).

(** ** [telegram_webhook] (bot.py, lines 89-126) *)

(** What the view function hands back to Flask: a JSON body and a status. *)
Record FlaskResponse : Type := { resp_body : json; resp_status : Z }.

Definition jsonify (fields : list (str * json)) : FlaskResponse :=
  {| resp_body := JDict fields; resp_status := 200 |}.

Definition ack_ok : FlaskResponse := jsonify [ (lit "ok", JBool true) ].

Definition ack_bad_request : FlaskResponse :=
  {| resp_body := JDict [ (lit "ok", JBool false) ]; resp_status := 400 |}.

Definition text_only_notice : str :=
  lit "I only understand text messages for now.".

Definition greeting : str :=
  lit "Hello! I'm CYBREIGN AI. Send any question and I'll ask Gemini and reply.".

(** The marker begins with two line feeds. *)
Definition truncation_suffix : str := [10; 10]%N ++ lit "...[truncated]".

(** Lines 122-123. *)
Definition trim_response (response_text : str) : str :=
  if Nat.ltb 4000 (List.length response_text)
  then PyStr.upto 3990 response_text ++ truncation_suffix
  else response_text.

(** Line 116; [text] is a string there and is formatted with [str]. *)
Definition build_prompt (env : Env) (text : json) : str :=
  lit "User asked: " ++ py_str env text
    ++ [10%N] ++ lit "Provide a short helpful explanation.".

(** Line 98: [update.get("message") or update.get("edited_message")]. *)
Definition select_message (update : json) : M json :=
  m <- lift (py_get update (lit "message") JNull) ;;
  if truthy m then ret m
  else lift (py_get update (lit "edited_message") JNull).

(** The body of the request is [None] when [request.get_json(force=True)]
    raises, and the decoded document otherwise.  The route admits POST
    only, so the method test of line 90 never fires. *)
Definition telegram_webhook (env : Env) (body : option json) : M FlaskResponse :=
  match body with
  | None => ret ack_bad_request
  | Some update =>
      message <- select_message update ;;
      if negb (truthy message) then ret ack_ok
      else
        chat <- lift (py_getitem message (lit "chat")) ;;
        chat_id <- lift (py_getitem chat (lit "id")) ;;
        text <- lift (py_get message (lit "text") (JStr [])) ;;
        message_id <- lift (py_get message (lit "message_id") JNull) ;;
        if negb (truthy text) then
          _ <- send_telegram_message env chat_id text_only_notice message_id ;;
          ret ack_ok
        else
          is_start <- lift (py_startswith text (lit "/start")) ;;
          if is_start then
            _ <- send_telegram_message env chat_id greeting JNull ;;
            ret ack_ok
          else
            let prompt := build_prompt env text in
            response_text <- call_gemini env prompt ;;
            let response_text := trim_response response_text in
            ' (ok, resp) <- send_telegram_message env chat_id response_text
                              message_id ;;
            ret (jsonify [ (lit "ok", JBool ok); (lit "raw", JStr resp) ])
  end.

(** The string [call_gemini] hands back, as a function of what the network
    answers to its single request (see [call_gemini_run]). *)
Definition generation_result (env : Env) (prompt_text : str) : str :=
  match requests_post env (gemini_request env prompt_text) with
  | Raise e => error_marker ++ exn_str e
  | Ret r =>
      match raise_for_status r with
      | Raise e => error_marker ++ exn_str e
      | Ret _ =>
          match resp_json r with
          | Raise e => error_marker ++ exn_str e
          | Ret data => response_text_of env data
          end
      end
  end.

(** The three ways the HTTP call of [call_gemini] fails, each with the
    exception it raises inside the [try] block. *)
Inductive gemini_failure (env : Env) (prompt_text : str) (e : exn) : Prop :=
| NetworkFailure :
    requests_post env (gemini_request env prompt_text) = Raise e ->
    gemini_failure env prompt_text e
| ErrorStatus r :
    requests_post env (gemini_request env prompt_text) = Ret r ->
    raise_for_status r = Raise e ->
    gemini_failure env prompt_text e
| MalformedBody r :
    requests_post env (gemini_request env prompt_text) = Ret r ->
    raise_for_status r = Ret tt ->
    resp_json r = Raise e ->
    gemini_failure env prompt_text e.

(** The serialisation [call_gemini] falls back to: [json.dumps] for a dict,
    [str] for everything else. *)
Definition serialization (env : Env) (data : json) : str :=
  if is_dict data then json_dumps env data else py_str env data.

(** The value line 98 binds to [message] when [update] is a dict with the
    given fields (see [select_message_dict]). *)
Definition selected_message (fields : list (str * json)) : json :=
  let get k := match dict_lookup k fields with Some v => v | None => JNull end in
  if truthy (get (lit "message")) then get (lit "message")
  else get (lit "edited_message").

(** Shapes of an update on which lines 102-111 do not raise: the message
    carries a chat object with an id, and its text, when there is one and
    it is truthy, is a string. *)
Definition has_chat_id (message : json) : bool :=
  match py_getitem message (lit "chat") with
  | Ret chat =>
      match py_getitem chat (lit "id") with
      | Ret _ => true
      | Raise _ => false
      end
  | Raise _ => false
  end.

Definition text_is_str_or_falsy (message : json) : bool :=
  match py_get message (lit "text") (JStr []) with
  | Ret (JStr _) => true
  | Ret t => negb (truthy t)
  | Raise _ => false
  end.

Definition well_formed_update (update : json) : bool :=
  match update with
  | JDict fields =>
      let message := selected_message fields in
      negb (truthy message)
      || (has_chat_id message && text_is_str_or_falsy message)
  | _ => false
  end.

(** ** Test doubles for the environment *)

Module Demo.

Definition toy_float_repr (f : spec_float) : str :=
  match f with
  | S754_zero false => lit "0.0"
  | S754_zero true => lit "-0.0"
  | S754_infinity false => lit "inf"
  | S754_infinity true => lit "-inf"
  | S754_nan => lit "nan"
  | S754_finite _ _ _ => lit "1.5"
  end.

Definition quote_repr (s : str) : str := [39%N] ++ s ++ [39%N].

Definition response (data : json) : Response :=
  {| raise_for_status := Ret tt;
     resp_json := Ret data;
     resp_ok := true;
     resp_text := lit "{}" |}.

(** Every POST is answered with a 200 whose body parses to [data]. *)
Definition online (data : json) : Env :=
  {| TELEGRAM_TOKEN := lit "123:abc";
     GEMINI_API_KEY := lit "key";
     requests_post := fun _ => Ret (response data);
     float_repr := toy_float_repr;
     str_repr := quote_repr |}.

(** Every POST raises. *)
Definition offline : Env :=
  {| TELEGRAM_TOKEN := lit "123:abc";
     GEMINI_API_KEY := lit "key";
     requests_post :=
       fun _ => Raise (Exn "ConnectionError" (lit "connection refused"));
     float_repr := toy_float_repr;
     str_repr := quote_repr |}.

Definition answer : json :=
  JDict [ (lit "candidates",
           JList [ JDict [ (lit "content",
                            JDict [ (lit "parts",
                                     JList [ JDict [ (lit "text",
                                                      JStr (lit "hello")) ] ]) ]) ] ]) ].

(** [{"message": {"chat": {"id": 42}, "text": t, "message_id": 7}}] *)
Definition message_fields (t : str) : list (str * json) :=
  [ (lit "chat", JDict [ (lit "id", JInt 42) ]);
    (lit "text", JStr t);
    (lit "message_id", JInt 7) ].

Definition event_fields (t : str) : list (str * json) :=
  [ (lit "message", JDict (message_fields t)) ].

Definition message_event (t : str) : json := JDict (event_fields t).

(** The object with the fields [a], an empty string, and [b], the string
    [x], in this order. *)
Definition empty_then_x : json :=
  JDict [ (lit "a", JStr []); (lit "b", JStr (lit "x")) ].

(** A generated text of 4001 letters. *)
Definition long_text : str := repeat 97%N 4001.

(** [{"usage": 3, "done": true}] *)
Definition usage_only : json :=
  JDict [ (lit "usage", JInt 3); (lit "done", JBool true) ].

(** [{"message": {"text": "hi", "message_id": 7}}]: no chat. *)
Definition chatless_fields : list (str * json) :=
  [ (lit "text", JStr (lit "hi")); (lit "message_id", JInt 7) ].

Definition chatless_event : json :=
  JDict [ (lit "message", JDict chatless_fields) ].

Definition edited : json :=
  JDict [ (lit "chat", JDict [ (lit "id", JInt 42) ]);
          (lit "text", JStr (lit "/start")) ].

(** [{"message": {}, "edited_message": {"chat": {"id": 42}, "text": "/start"}}] *)
Definition empty_message_fields : list (str * json) :=
  [ (lit "message", JDict []); (lit "edited_message", edited) ].

Definition empty_message_event : json := JDict empty_message_fields.

(** [{"update_id": 1, "channel_post": {}}] *)
Definition channel_post_fields : list (str * json) :=
  [ (lit "update_id", JInt 1); (lit "channel_post", JDict []) ].

(** [{"message": {"chat": {"id": 42}, "text": "/start"},
      "edited_message": {"text": "x"}}] *)
Definition both_fields : list (str * json) :=
  [ (lit "message", edited);
    (lit "edited_message", JDict [ (lit "text", JStr (lit "x")) ]) ].

End Demo.

(** ** Status codes of a response *)

(** What [raise_for_status()] of the requests library raises: an
    [HTTPError] whose message names the status, the reason phrase and the
    URL, with the word Client for 400 to 499 and Server for 500 to 599. *)
Definition http_error (status_code : Z) (reason url : str) : exn :=
  Exn "HTTPError"
    (int_repr status_code
       ++ (if (status_code <? 500)%Z
           then lit " Client Error: " else lit " Server Error: ")
       ++ reason ++ lit " for url: " ++ url).

Definition is_error_status (status_code : Z) : bool :=
  ((400 <=? status_code) && (status_code <? 600))%Z.

(** The response of the requests library for a status code: the status
    check raises for the codes from 400 to 599 and for no other, and [ok]
    is whether it returns. *)
Definition requests_response (status_code : Z) (reason url : str)
    (body : outcome json) (text : str) : Response :=
  {| raise_for_status :=
       if is_error_status status_code
       then Raise (http_error status_code reason url)
       else Ret tt;
     resp_json := body;
     resp_ok := negb (is_error_status status_code);
     resp_text := text |}.

(** ** The registration route (bot.py, lines 130-143) *)

(** The path of the webhook route, line 88. *)
Definition webhook_route (secret_path : str) : str :=
  lit "/telegram/" ++ secret_path.

(** [s.lstrip("/")] and [s.rstrip("/")] *)
Fixpoint lstrip_slash (s : str) : str :=
  match s with
  | [] => []
  | c :: rest => if (c =? 47)%N then lstrip_slash rest else c :: rest
  end.

Definition rstrip_slash (s : str) : str := rev (lstrip_slash (rev s)).

(** Lines 133-137: the base URL, from the environment when it is set and
    not empty, from the host of the request otherwise. *)
Definition render_url_of (RENDER_EXTERNAL_URL : option str) (host_url : str)
  : str :=
  if res_truthy RENDER_EXTERNAL_URL
  then match RENDER_EXTERNAL_URL with Some u => u | None => [] end
  else rstrip_slash host_url.

(** Line 139. *)
Definition webhook_url_of (secret_path : str)
    (RENDER_EXTERNAL_URL : option str) (host_url : str) : str :=
  render_url_of RENDER_EXTERNAL_URL host_url
    ++ lit "/telegram/" ++ secret_path.

Definition set_webhook_request (env : Env) (webhook_url : str) : Request :=
  {| req_url := BASE_TELEGRAM env ++ lit "/setWebhook";
     req_headers := [];
     req_json := JDict [ (lit "url", JStr webhook_url) ];
     req_timeout := 20 |}.

(** [set_webhook], with what it reads from the process and from the
    request as arguments. *)
Definition set_webhook (env : Env) (secret_path : str)
    (RENDER_EXTERNAL_URL : option str) (host_url : str) : M FlaskResponse :=
  let webhook_url := webhook_url_of secret_path RENDER_EXTERNAL_URL host_url in
  r <- post env (set_webhook_request env webhook_url) ;;
  telegram_response <- lift (resp_json r) ;;
  ret (jsonify [ (lit "webhook_url", JStr webhook_url);
                 (lit "telegram_response", telegram_response) ]).

(** ** The runs of the handler *)

(** The shapes a run of [telegram_webhook] can have: the outcome and the
    log of outbound calls (see [telegram_webhook_runs]). *)
Inductive webhook_run (env : Env)
  : option json -> outcome FlaskResponse -> list Request -> Prop :=
| RunUndecodable :
    webhook_run env None (Ret ack_bad_request) []
| RunRaisesEarly update e :
    well_formed_update update = false ->
    webhook_run env (Some update) (Raise e) []
| RunIgnored update :
    well_formed_update update = true ->
    webhook_run env (Some update) (Ret ack_ok) []
| RunFixedReply update chat_id text reply :
    well_formed_update update = true ->
    text = text_only_notice \/ (text = greeting /\ reply = JNull) ->
    webhook_run env (Some update)
      (match requests_post env (send_request env chat_id text reply) with
       | Ret _ => Ret ack_ok
       | Raise e => Raise e
       end)
      [send_request env chat_id text reply]
| RunAnswer update user_text chat_id reply :
    well_formed_update update = true ->
    webhook_run env (Some update)
      (match requests_post env
               (send_request env chat_id
                  (trim_response
                     (generation_result env (build_prompt env (JStr user_text))))
                  reply) with
       | Ret r =>
           Ret (jsonify [ (lit "ok", JBool (resp_ok r));
                          (lit "raw", JStr (resp_text r)) ])
       | Raise e => Raise e
       end)
      [ gemini_request env (build_prompt env (JStr user_text));
        send_request env chat_id
          (trim_response
             (generation_result env (build_prompt env (JStr user_text))))
          reply ].

(** ** More test doubles *)

Module Sample.

(** The backend is down with a 503, Telegram answers. *)
Definition unavailable : exn :=
  Exn "HTTPError" (lit "503 Server Error: Service Unavailable").

Definition backend_down : Env :=
  {| TELEGRAM_TOKEN := lit "123:abc";
     GEMINI_API_KEY := lit "key";
     requests_post :=
       fun req =>
         if (req_timeout req =? 30)%Z
         then Ret {| raise_for_status := Raise unavailable;
                     resp_json := Ret JNull;
                     resp_ok := false;
                     resp_text := [] |}
         else Ret (Demo.response Demo.answer);
     float_repr := Demo.toy_float_repr;
     str_repr := Demo.quote_repr |}.

(** [{"message": {"chat": {"id": 42}, "message_id": 7, "photo": []}}] *)
Definition photo_fields : list (str * json) :=
  [ (lit "chat", JDict [ (lit "id", JInt 42) ]);
    (lit "message_id", JInt 7);
    (lit "photo", JList []) ].

Definition photo_event_fields : list (str * json) :=
  [ (lit "message", JDict photo_fields) ].

(** Every POST is answered with the given status and a body that parses
    to [data]. *)
Definition answering (status_code : Z) (reason : str) (data : json) : Env :=
  {| TELEGRAM_TOKEN := lit "123:abc";
     GEMINI_API_KEY := lit "key";
     requests_post :=
       fun req =>
         Ret (requests_response status_code reason (req_url req) (Ret data)
                (lit "{}"));
     float_repr := Demo.toy_float_repr;
     str_repr := Demo.quote_repr |}.

End Sample.

(** * Properties *)

(** ** The extractor *)

Section first_truthy_facts.
Context {A : Type} (find : A -> option str) (strings : A -> list str).

Lemma first_truthy_flat_map (l : list A) :
  Forall (fun x => agrees (find x) (strings x)) l ->
  first_truthy find l
  = hd_error (filter PyStr.nonempty (flat_map strings l)).
Proof.
  induction 1 as [| x rest [Hyes Hno] _ IH]; [reflexivity |].
  cbn [first_truthy flat_map]. rewrite filter_app.
  destruct (res_truthy (find x)) eqn:Hres.
  - specialize (Hyes eq_refl). rewrite Hyes in Hres |- *.
    destruct (filter PyStr.nonempty (strings x)); [discriminate | reflexivity].
  - rewrite (Hno eq_refl). exact IH.
Qed.
End first_truthy_facts.

Lemma hd_filter_nonempty (l : list str) :
  hd_error (filter PyStr.nonempty l) = None
  \/ exists c s, hd_error (filter PyStr.nonempty l) = Some (c :: s).
Proof.
  induction l as [| [| c s] l IH]; cbn; [now left | exact IH | right; eauto].
Qed.

Lemma agrees_hd_filter (l : list str) :
  agrees (hd_error (filter PyStr.nonempty l)) l.
Proof.
  split; [reflexivity |].
  induction l as [| [| c s] l IH]; cbn; [reflexivity | exact IH | discriminate].
Qed.

Lemma find_text_agrees (d : json) : agrees (find_text d) (strings_dfs d).
Proof.
  induction d as [ | b | z | f | s | items IH | fields IH ]
    using json_nested_ind;
    try (split; [discriminate | reflexivity]).
  - destruct s; split; cbn; congruence.
  - cbn [find_text strings_dfs].
    rewrite (first_truthy_flat_map find_text strings_dfs items IH).
    apply agrees_hd_filter.
  - cbn [find_text strings_dfs].
    rewrite (first_truthy_flat_map (fun kv => find_text (snd kv))
               (fun kv => strings_dfs (snd kv)) fields IH).
    apply agrees_hd_filter.
Qed.

Lemma find_text_dict (fields : list (str * json)) :
  find_text (JDict fields) = first_nonempty_string (JDict fields).
Proof.
  unfold first_nonempty_string. cbn [find_text strings_dfs].
  apply first_truthy_flat_map, Forall_forall. intros kv _.
  apply find_text_agrees.
Qed.

Lemma find_text_list (items : list json) :
  find_text (JList items) = first_nonempty_string (JList items).
Proof.
  unfold first_nonempty_string. cbn [find_text strings_dfs].
  apply first_truthy_flat_map, Forall_forall. intros x _.
  apply find_text_agrees.
Qed.

(** C4, as stated, fails: in the object [Demo.empty_then_x] the first
    scalar string of the depth-first traversal is the empty string of field
    [a], and [find_text] returns the string [x] of field [b]. *)
Lemma find_text_passes_over_empty_string :
  first_string Demo.empty_then_x = Some []
  /\ find_text Demo.empty_then_x = Some (lit "x")
  /\ find_text Demo.empty_then_x <> first_string Demo.empty_then_x.
Proof. repeat split. discriminate. Qed.

(** C4, amended: on every document other than a bare empty string the
    extractor [find_text] returns the first non-empty scalar string of the
    depth-first traversal (object values in field order, sequence elements
    in order), and nothing when there is no such string. *)
Theorem find_text_first_nonempty_string (d : json) :
  d <> JStr [] -> find_text d = first_nonempty_string d.
Proof.
  intros Hd. destruct d as [ | b | z | f | s | items | fields ];
    try reflexivity.
  - destruct s; [contradiction | reflexivity].
  - apply find_text_list.
  - apply find_text_dict.
Qed.

Lemma find_text_first_nonempty_string_witness :
  Demo.answer <> JStr []
  /\ find_text Demo.answer = Some (lit "hello")
  /\ first_nonempty_string Demo.answer = Some (lit "hello").
Proof.
  assert (H : Demo.answer <> JStr []) by discriminate.
  split; [exact H |].
  split; [| reflexivity].
  rewrite (find_text_first_nonempty_string Demo.answer H). reflexivity.
Defined.

(** C10, as stated, fails: on the document that is the bare empty string
    the search returns that string. *)
Lemma find_text_of_empty_string : find_text (JStr []) = Some [].
Proof. reflexivity. Qed.

(** C10, amended: on every document other than the bare empty string the
    search ends with nothing found or with a non-empty string.  In an
    object and in a sequence the values whose search gives nothing or the
    empty string are passed over and the search goes on: the result is the
    non-empty result of the first value that has one, and nothing is found
    when no value has one. *)
Theorem find_text_never_empty :
  (forall d,
      d <> JStr [] ->
      find_text d = None \/ exists c s, find_text d = Some (c :: s))
  /\ (forall before k v rest c s,
         Forall (fun kv => find_text (snd kv) = None
                           \/ find_text (snd kv) = Some []) before ->
         find_text v = Some (c :: s) ->
         find_text (JDict (before ++ (k, v) :: rest)) = Some (c :: s))
  /\ (forall before v rest c s,
         Forall (fun x => find_text x = None \/ find_text x = Some [])
           before ->
         find_text v = Some (c :: s) ->
         find_text (JList (before ++ v :: rest)) = Some (c :: s))
  /\ (forall fields,
         Forall (fun kv => find_text (snd kv) = None
                           \/ find_text (snd kv) = Some []) fields ->
         find_text (JDict fields) = None)
  /\ (forall items,
         Forall (fun x => find_text x = None \/ find_text x = Some []) items ->
         find_text (JList items) = None).
Proof.
  split; [| repeat split].
  - intros d Hd. destruct d as [ | | | | s | items | fields ];
      try (now left).
    + right. destruct s as [| c s]; [contradiction | now exists c, s].
    + rewrite find_text_list. apply hd_filter_nonempty.
    + rewrite find_text_dict. apply hd_filter_nonempty.
  - intros before k v rest c s Hskip Hfound. cbn [find_text].
    induction Hskip as [| kv before' [H | H] _ IH];
      cbn [app first_truthy snd].
    + now rewrite Hfound.
    + now rewrite H.
    + now rewrite H.
  - intros before v rest c s Hskip Hfound. cbn [find_text].
    induction Hskip as [| x before' [H | H] _ IH]; cbn [app first_truthy].
    + now rewrite Hfound.
    + now rewrite H.
    + now rewrite H.
  - intros fields Hskip. cbn [find_text].
    induction Hskip as [| kv fields' [H | H] _ IH]; cbn [first_truthy];
      [reflexivity | now rewrite H | now rewrite H].
  - intros items Hskip. cbn [find_text].
    induction Hskip as [| x items' [H | H] _ IH]; cbn [first_truthy];
      [reflexivity | now rewrite H | now rewrite H].
Qed.

Lemma find_text_never_empty_witness :
  find_text (JDict [ (lit "a", JStr []); (lit "b", JList [ JStr []; JNull ]);
                     (lit "c", JStr (lit "x")); (lit "d", JStr (lit "y")) ])
  = Some (lit "x").
Proof.
  destruct find_text_never_empty as (_ & Hdict & _ & _ & Hnone).
  apply (Hdict [ (lit "a", JStr []); (lit "b", JList [ JStr []; JNull ]) ]
           (lit "c") (JStr (lit "x")) [ (lit "d", JStr (lit "y")) ]).
  - apply Forall_cons; [now right |].
    apply Forall_cons; [| apply Forall_nil].
    left. apply Hnone.
    apply Forall_cons; [now right |].
    apply Forall_cons; [now left | apply Forall_nil].
  - reflexivity.
Defined.

(** ** Truncation of the generated text *)

Lemma truncation_suffix_length : List.length truncation_suffix = 16.
Proof. reflexivity. Qed.

(** C1, as stated, fails: 4001 letters are delivered as 4006 characters. *)
Lemma trim_response_length_not_4000 :
  4000 < List.length Demo.long_text
  /\ List.length (trim_response Demo.long_text) = 4006
  /\ List.length (trim_response Demo.long_text) <> 4000.
Proof.
  assert (Hlen : List.length (trim_response Demo.long_text) = 4006)
    by (vm_compute; reflexivity).
  rewrite Hlen. unfold Demo.long_text. rewrite repeat_length.
  repeat split; lia.
Qed.

(** C1, amended: a generated string longer than 4000 characters is
    delivered as its first 3990 characters followed by two line feeds and
    the marker; the delivered text has length 4006, ends with the marker
    and agrees with the source on the first 3990 characters.  A string of
    at most 4000 characters is delivered unchanged. *)
Theorem trim_response_spec (s : str) :
  (4000 < List.length s ->
     trim_response s = firstn 3990 s ++ [10; 10]%N ++ lit "...[truncated]"
     /\ List.length (trim_response s) = 4006
     /\ (exists before, trim_response s = before ++ lit "...[truncated]")
     /\ firstn 3990 (trim_response s) = firstn 3990 s)
  /\ (List.length s <= 4000 -> trim_response s = s).
Proof.
  unfold trim_response, PyStr.upto. split; intros Hlen.
  - apply Nat.ltb_lt in Hlen as Hlt. rewrite Hlt.
    assert (Hcut : List.length (firstn 3990 s) = 3990)
      by (apply firstn_length_le; lia).
    repeat split.
    + rewrite length_app, Hcut, truncation_suffix_length. reflexivity.
    + exists (firstn 3990 s ++ [10; 10]%N).
      unfold truncation_suffix. now rewrite app_assoc.
    + rewrite firstn_app, Hcut, Nat.sub_diag, firstn_O, app_nil_r.
      rewrite firstn_firstn, Nat.min_id. reflexivity.
  - apply Nat.ltb_ge in Hlen. now rewrite Hlen.
Qed.

Lemma trim_response_spec_witness :
  4000 < List.length Demo.long_text
  /\ firstn 3990 (trim_response Demo.long_text) = firstn 3990 Demo.long_text
  /\ trim_response (lit "hello") = lit "hello".
Proof.
  assert (Hlong : 4000 < List.length Demo.long_text)
    by (unfold Demo.long_text; rewrite repeat_length; lia).
  assert (Hshort : List.length (lit "hello") <= 4000)
    by (vm_compute; lia).
  split; [exact Hlong |].
  split.
  - exact (proj2 (proj2 (proj2 (proj1 (trim_response_spec _) Hlong)))).
  - exact (proj2 (trim_response_spec _) Hshort).
Defined.

(** ** The generation client *)

Lemma call_gemini_run (env : Env) (prompt_text : str) (log : list Request) :
  call_gemini env prompt_text log
  = (Ret (generation_result env prompt_text),
     log ++ [gemini_request env prompt_text]).
Proof.
  unfold call_gemini, generation_result, try_except, bind, post, lift, ret.
  destruct (requests_post env (gemini_request env prompt_text)) as [r | e];
    [| reflexivity].
  destruct (raise_for_status r) as [[] | e]; [| reflexivity].
  destruct (resp_json r) as [data | e]; reflexivity.
Qed.

Lemma generation_result_failure (env : Env) (prompt_text : str) (e : exn) :
  gemini_failure env prompt_text e ->
  generation_result env prompt_text = error_marker ++ exn_str e.
Proof.
  intros Hfail. unfold generation_result.
  destruct Hfail as [Hpost | r Hpost Hstatus | r Hpost Hstatus Hbody];
    rewrite Hpost; [reflexivity | now rewrite Hstatus |].
  now rewrite Hstatus, Hbody.
Qed.

(** C3, as stated, fails: a response with status 300, which is not a 2xx
    status, passes the status check; with a body that parses, the text of
    the body is returned, and it does not begin with the error marker. *)
Lemma call_gemini_unmarked_on_status_300 :
  ((300 <? 200) || (299 <? 300))%Z = true
  /\ run (call_gemini
            (Sample.answering 300 (lit "Multiple Choices") Demo.answer)
            (lit "hi"))
     = (Ret (lit "hello"),
        [gemini_request
           (Sample.answering 300 (lit "Multiple Choices") Demo.answer)
           (lit "hi")])
  /\ PyStr.startswith (lit "hello") error_marker = false.
Proof. repeat split. Qed.

(** C3, amended: whatever the network does, [call_gemini] makes its one
    POST, returns a string and does not raise.  When the HTTP call fails,
    the string is the error marker followed by [str(e)]: for the exception
    of a POST that raises, for the exception of the status check, which is
    the [HTTPError] of a status from 400 to 599, and for the exception of
    a body that does not parse.  A response with any other status, a 3xx
    included, is taken as a success: with a body that parses, the text
    extracted from the body is returned. *)
Theorem call_gemini_error_marker (env : Env) (prompt_text : str) :
  exists s : str,
    run (call_gemini env prompt_text)
    = (Ret s, [gemini_request env prompt_text])
    /\ (forall e, gemini_failure env prompt_text e ->
                  s = error_marker ++ exn_str e)
    /\ (forall status_code reason url body text,
           requests_post env (gemini_request env prompt_text)
           = Ret (requests_response status_code reason url body text) ->
           (400 <= status_code < 600)%Z ->
           s = error_marker ++ exn_str (http_error status_code reason url))
    /\ (forall status_code reason url data text,
           requests_post env (gemini_request env prompt_text)
           = Ret (requests_response status_code reason url (Ret data) text) ->
           (status_code < 400 \/ 600 <= status_code)%Z ->
           s = response_text_of env data).
Proof.
  exists (generation_result env prompt_text). split; [| repeat split].
  - unfold run. now rewrite call_gemini_run.
  - apply generation_result_failure.
  - intros status_code reason url body text Hpost Hrange.
    apply generation_result_failure.
    apply ErrorStatus with (1 := Hpost). cbn [raise_for_status requests_response].
    unfold is_error_status.
    replace (400 <=? status_code)%Z with true by (symmetry; lia).
    replace (status_code <? 600)%Z with true by (symmetry; lia).
    reflexivity.
  - intros status_code reason url data text Hpost Hrange.
    unfold generation_result. rewrite Hpost.
    cbn [raise_for_status resp_json requests_response].
    unfold is_error_status.
    destruct Hrange as [Hlow | Hhigh].
    + replace (400 <=? status_code)%Z with false by (symmetry; lia).
      reflexivity.
    + replace (status_code <? 600)%Z with false by (symmetry; lia).
      now rewrite andb_false_r.
Qed.

Lemma call_gemini_error_marker_witness :
  run (call_gemini Demo.offline (lit "hi"))
  = (Ret (lit "[error calling Gemini] connection refused"),
     [gemini_request Demo.offline (lit "hi")])
  /\ run (call_gemini
            (Sample.answering 503 (lit "Service Unavailable") Demo.answer)
            (lit "hi"))
     = (Ret (lit "[error calling Gemini] 503 Server Error: Service Unavailable for url: https://generativelanguage.googleapis.com/v1beta/models/gemini-3-pro-preview:generateContent"),
        [gemini_request
           (Sample.answering 503 (lit "Service Unavailable") Demo.answer)
           (lit "hi")]).
Proof.
  split.
  - destruct (call_gemini_error_marker Demo.offline (lit "hi"))
      as (s & Hrun & Hfail & _).
    rewrite Hrun.
    rewrite (Hfail (Exn "ConnectionError" (lit "connection refused"))).
    + reflexivity.
    + apply NetworkFailure. reflexivity.
  - destruct (call_gemini_error_marker
                (Sample.answering 503 (lit "Service Unavailable") Demo.answer)
                (lit "hi")) as (s & Hrun & _ & Hstatus & _).
    rewrite Hrun.
    rewrite (Hstatus 503%Z (lit "Service Unavailable") gemini_endpoint
               (Ret Demo.answer) (lit "{}") eq_refl); [reflexivity | lia].
Defined.

Lemma int_repr_nonempty (z : Z) : int_repr z <> [].
Proof.
  unfold int_repr, lit.
  destruct (Z.to_int z) as [u | u]; cbn; [| discriminate].
  destruct u; cbn; discriminate.
Qed.

Lemma serialization_nonempty (env : Env) (data : json) :
  (forall f, float_repr env f <> []) ->
  strings_dfs data = [] ->
  serialization env data <> [].
Proof.
  intros Hfloat Hnone.
  destruct data as [ | [|] | z | f | s | items | fields ];
    cbn in *; try discriminate.
  - apply int_repr_nonempty.
  - apply Hfloat.
Qed.

Lemma upto_bounds (n : nat) (s : str) :
  0 < n -> s <> [] ->
  0 < List.length (PyStr.upto n s) <= n.
Proof.
  intros Hn Hs. unfold PyStr.upto. rewrite length_firstn.
  destruct s as [| c s]; [contradiction | cbn [List.length]; lia].
Qed.

(** C5: when the response parses to a document without any string value,
    [call_gemini] returns the first 1900 characters of the serialisation of
    the whole document ([json.dumps] for an object, [str] otherwise); the
    returned string has between 1 and 1900 characters. *)
Theorem call_gemini_fallback_serialization
    (env : Env) (prompt_text : str) (r : Response) (data : json) :
  (forall f, float_repr env f <> []) ->
  requests_post env (gemini_request env prompt_text) = Ret r ->
  raise_for_status r = Ret tt ->
  resp_json r = Ret data ->
  strings_dfs data = [] ->
  run (call_gemini env prompt_text)
  = (Ret (firstn 1900 (serialization env data)),
     [gemini_request env prompt_text])
  /\ 0 < List.length (firstn 1900 (serialization env data)) <= 1900.
Proof.
  intros Hfloat Hpost Hstatus Hbody Hnone. split.
  - unfold run. rewrite call_gemini_run. cbn [app]. do 2 f_equal.
    unfold generation_result. rewrite Hpost, Hstatus, Hbody.
    unfold response_text_of, serialization, PyStr.upto.
    destruct (is_dict data) eqn:Hdict; [| reflexivity].
    destruct data; try discriminate.
    rewrite find_text_dict. unfold first_nonempty_string.
    rewrite Hnone. reflexivity.
  - apply (upto_bounds 1900); [lia |].
    now apply serialization_nonempty.
Qed.

Lemma call_gemini_fallback_serialization_witness :
  run (call_gemini (Demo.online Demo.usage_only) (lit "hi"))
  = (Ret [123; 34; 117; 115; 97; 103; 101; 34; 58; 32; 51; 44; 32;
          34; 100; 111; 110; 101; 34; 58; 32; 116; 114; 117; 101; 125]%N,
     [gemini_request (Demo.online Demo.usage_only) (lit "hi")]).
Proof.
  refine (proj1 (call_gemini_fallback_serialization
                   (Demo.online Demo.usage_only) (lit "hi")
                   (Demo.response Demo.usage_only) Demo.usage_only
                   _ eq_refl eq_refl eq_refl eq_refl)).
  intros f. destruct f as [[|] | [|] | | ]; discriminate.
Defined.

(** ** The outbound messenger *)

Lemma send_telegram_message_run
    (env : Env) (chat_id : json) (text : str) (reply : json)
    (log : list Request) :
  send_telegram_message env chat_id text reply log
  = (match requests_post env (send_request env chat_id text reply) with
     | Ret r => Ret (resp_ok r, resp_text r)
     | Raise e => Raise e
     end,
     log ++ [send_request env chat_id text reply]).
Proof.
  unfold send_telegram_message, bind, post, ret.
  destruct (requests_post env (send_request env chat_id text reply));
    reflexivity.
Qed.

(** C9, as stated, fails: the message id 0 is provided and the payload has
    no reply field. *)
Lemma send_payload_omits_reply_to_zero :
  JInt 0 <> JNull
  /\ dict_lookup (lit "reply_to_message_id")
       (send_payload (JInt 42) (lit "hi") (JInt 0)) = None.
Proof. split; [discriminate | reflexivity]. Qed.

(** C9, amended: every call of [send_telegram_message] posts one request
    whose payload has the reply field exactly when the argument is truthy
    (so not for [None], and not for 0, an empty string or container, or
    [False] either); the field then holds the argument, and otherwise the
    payload consists of [chat_id], [text] and [parse_mode] only, with no
    null in place of the field. *)
Theorem send_payload_reply_field
    (env : Env) (chat_id : json) (text : str) (reply : json)
    (log : list Request) :
  let payload := send_payload chat_id text reply in
  snd (send_telegram_message env chat_id text reply log)
  = log ++ [send_request env chat_id text reply]
  /\ req_json (send_request env chat_id text reply) = JDict payload
  /\ (dict_lookup (lit "reply_to_message_id") payload <> None
      <-> truthy reply = true)
  /\ (truthy reply = true ->
      payload = [ (lit "chat_id", chat_id); (lit "text", JStr text);
                  (lit "parse_mode", JStr (lit "Markdown"));
                  (lit "reply_to_message_id", reply) ])
  /\ (truthy reply = false ->
      payload = [ (lit "chat_id", chat_id); (lit "text", JStr text);
                  (lit "parse_mode", JStr (lit "Markdown")) ]).
Proof.
  cbv zeta. rewrite send_telegram_message_run.
  split; [reflexivity |]. split; [reflexivity |].
  unfold send_payload.
  destruct (truthy reply); cbn; repeat split; try congruence; discriminate.
Qed.

Lemma send_payload_reply_field_witness :
  send_payload (JInt 42) (lit "hi") (JInt 7)
  = [ (lit "chat_id", JInt 42); (lit "text", JStr (lit "hi"));
      (lit "parse_mode", JStr (lit "Markdown"));
      (lit "reply_to_message_id", JInt 7) ]
  /\ send_payload (JInt 42) (lit "hi") JNull
     = [ (lit "chat_id", JInt 42); (lit "text", JStr (lit "hi"));
         (lit "parse_mode", JStr (lit "Markdown")) ].
Proof.
  split.
  - exact (proj1 (proj2 (proj2 (proj2
             (send_payload_reply_field Demo.offline (JInt 42) (lit "hi")
                (JInt 7) [])))) eq_refl).
  - exact (proj2 (proj2 (proj2 (proj2
             (send_payload_reply_field Demo.offline (JInt 42) (lit "hi")
                JNull [])))) eq_refl).
Defined.

(** ** Running a computation step by step *)

Lemma bind_returns {A B : Type} (m : M A) (k : A -> M B)
    (log log' : list Request) (a : A) :
  m log = (Ret a, log') -> bind m k log = k a log'.
Proof. intros H. unfold bind. now rewrite H. Qed.

Lemma bind_raises {A B : Type} (m : M A) (k : A -> M B)
    (log log' : list Request) (e : exn) :
  m log = (Raise e, log') -> bind m k log = (Raise e, log').
Proof. intros H. unfold bind. now rewrite H. Qed.

Lemma lift_run {A : Type} (o : outcome A) (log : list Request) :
  lift o log = (o, log).
Proof. reflexivity. Qed.

(** ** The normaliser *)

Lemma select_message_dict (fields : list (str * json)) (log : list Request) :
  select_message (JDict fields) log = (Ret (selected_message fields), log).
Proof.
  unfold select_message, selected_message, bind, lift, py_get, ret.
  destruct (truthy _); reflexivity.
Qed.

(** The handler looks at an update only through line 98. *)
Lemma telegram_webhook_selected
    (env : Env) (fields fields' : list (str * json)) (log : list Request) :
  selected_message fields = selected_message fields' ->
  telegram_webhook env (Some (JDict fields)) log
  = telegram_webhook env (Some (JDict fields')) log.
Proof.
  intros Hsel. unfold telegram_webhook.
  rewrite !(bind_returns _ _ _ _ _ (select_message_dict _ log)), Hsel.
  reflexivity.
Qed.

(** C6, as stated, fails: with an empty [message] object next to an
    [edited_message], line 98 takes the edited message, and the greeting
    goes to its chat. *)
Lemma select_message_takes_edited_message :
  dict_lookup (lit "message") Demo.empty_message_fields = Some (JDict [])
  /\ dict_lookup (lit "edited_message") Demo.empty_message_fields
     = Some Demo.edited
  /\ run (select_message Demo.empty_message_event) = (Ret Demo.edited, [])
  /\ Demo.edited <> JDict []
  /\ run (telegram_webhook (Demo.online Demo.answer)
            (Some Demo.empty_message_event))
     = (Ret ack_ok,
        [send_request (Demo.online Demo.answer) (JInt 42) greeting JNull]).
Proof. repeat split. discriminate. Qed.

(** C6, amended: when both fields are present and the value of [message]
    is truthy (a non-empty object, for one), line 98 binds [message] to it,
    and the handler does what it does on the update that has this
    [message] field alone; the edited message plays no part.  When the
    value of [message] is falsy, line 98 binds the value of
    [edited_message]. *)
Theorem select_message_prefers_message
    (fields : list (str * json)) (m e : json) :
  dict_lookup (lit "message") fields = Some m ->
  dict_lookup (lit "edited_message") fields = Some e ->
  (truthy m = true ->
   run (select_message (JDict fields)) = (Ret m, [])
   /\ forall env log,
        telegram_webhook env (Some (JDict fields)) log
        = telegram_webhook env (Some (JDict [ (lit "message", m) ])) log)
  /\ (truthy m = false ->
      run (select_message (JDict fields)) = (Ret e, [])).
Proof.
  intros Hm He. unfold run. rewrite select_message_dict.
  split; intros Htruthy.
  - assert (Hsel : selected_message fields = m)
      by (unfold selected_message; now rewrite Hm, Htruthy).
    split; [now rewrite Hsel |].
    intros env log. apply telegram_webhook_selected. rewrite Hsel.
    unfold selected_message. cbn. now rewrite Htruthy.
  - unfold selected_message. now rewrite Hm, He, Htruthy.
Qed.

Lemma select_message_prefers_message_witness :
  run (select_message (JDict Demo.both_fields)) = (Ret Demo.edited, [])
  /\ run (select_message (JDict Demo.empty_message_fields))
     = (Ret Demo.edited, []).
Proof.
  split.
  - exact (proj1 (proj1 (select_message_prefers_message Demo.both_fields
                           Demo.edited
                           (JDict [ (lit "text", JStr (lit "x")) ])
                           eq_refl eq_refl) eq_refl)).
  - exact (proj2 (select_message_prefers_message Demo.empty_message_fields
                    (JDict []) Demo.edited eq_refl eq_refl) eq_refl).
Defined.

(** ** The handler *)

(** C7, as stated, fails: the body [null] decodes and has neither field,
    and the handler raises [AttributeError] at line 98 instead of
    returning an acknowledgment. *)
Lemma telegram_webhook_raises_on_null_body :
  run (telegram_webhook Demo.offline (Some JNull))
  = (Raise (AttributeError JNull "get"), [])
  /\ fst (run (telegram_webhook Demo.offline (Some JNull))) <> Ret ack_ok.
Proof. split; [reflexivity | discriminate]. Qed.

(** C7, amended: on a decoded event that is a JSON object with neither a
    [message] nor an [edited_message] field the handler returns
    [{"ok": true}] with status 200 and makes no outbound call at all,
    neither a send nor a generation call.  On a body that decodes to
    anything but an object it raises [AttributeError] at line 98, also
    without any outbound call. *)
Theorem telegram_webhook_without_message (env : Env) :
  (forall fields,
      dict_lookup (lit "message") fields = None ->
      dict_lookup (lit "edited_message") fields = None ->
      run (telegram_webhook env (Some (JDict fields))) = (Ret ack_ok, []))
  /\ (forall update,
         is_dict update = false ->
         run (telegram_webhook env (Some update))
         = (Raise (AttributeError update "get"), [])).
Proof.
  split.
  - intros fields Hm He. unfold run, telegram_webhook.
    rewrite (bind_returns _ _ _ _ _ (select_message_dict _ _)).
    unfold selected_message. rewrite Hm, He. reflexivity.
  - intros update Hdict.
    destruct update; try discriminate; reflexivity.
Qed.

Lemma telegram_webhook_without_message_witness :
  run (telegram_webhook Demo.offline (Some (JDict Demo.channel_post_fields)))
  = (Ret ack_ok, [])
  /\ run (telegram_webhook Demo.offline (Some (JList [])))
     = (Raise (AttributeError (JList []) "get"), []).
Proof.
  split.
  - exact (proj1 (telegram_webhook_without_message Demo.offline)
             Demo.channel_post_fields eq_refl eq_refl).
  - exact (proj2 (telegram_webhook_without_message Demo.offline)
             (JList []) eq_refl).
Defined.

Lemma dict_with_chat_truthy (mf : list (str * json)) (chat : json) :
  dict_lookup (lit "chat") mf = Some chat -> truthy (JDict mf) = true.
Proof. destruct mf; [discriminate | reflexivity]. Qed.

Lemma startswith_nonempty (t p : str) :
  PyStr.startswith t p = true -> p <> [] -> PyStr.nonempty t = true.
Proof. destruct p, t; cbn; congruence. Qed.

(** Lines 98-104 on a message that has its chat id. *)
Ltac enter_handler Hsel Hchat Hid Htext Hmid :=
  unfold telegram_webhook;
  rewrite (bind_returns _ _ _ _ _ (select_message_dict _ _)), Hsel;
  rewrite (dict_with_chat_truthy _ _ Hchat); cbn [negb];
  unfold py_getitem at 1; rewrite Hchat;
  rewrite (bind_returns _ _ _ _ _ (lift_run _ _));
  rewrite Hid;
  rewrite (bind_returns _ _ _ _ _ (lift_run _ _));
  rewrite Htext;
  rewrite (bind_returns _ _ _ _ _ (lift_run _ _));
  rewrite Hmid;
  rewrite (bind_returns _ _ _ _ _ (lift_run _ _)).

Section handler_branches.
Context (env : Env) (fields mf : list (str * json)).
Context (chat chat_id text message_id : json) (log : list Request).
Hypothesis Hsel : selected_message fields = JDict mf.
Hypothesis Hchat : dict_lookup (lit "chat") mf = Some chat.
Hypothesis Hid : py_getitem chat (lit "id") = Ret chat_id.
Hypothesis Htext : py_get (JDict mf) (lit "text") (JStr []) = Ret text.
Hypothesis Hmid : py_get (JDict mf) (lit "message_id") JNull = Ret message_id.

(** Lines 106-108. *)
Lemma telegram_webhook_no_text :
  truthy text = false ->
  telegram_webhook env (Some (JDict fields)) log
  = (match requests_post env
             (send_request env chat_id text_only_notice message_id) with
     | Ret _ => Ret ack_ok
     | Raise e => Raise e
     end,
     log ++ [send_request env chat_id text_only_notice message_id]).
Proof.
  intros Hfalsy. enter_handler Hsel Hchat Hid Htext Hmid.
  rewrite Hfalsy. cbn [negb].
  unfold bind. rewrite send_telegram_message_run.
  destruct (requests_post _ _); reflexivity.
Qed.

(** Lines 111-113. *)
Lemma telegram_webhook_start (t : str) :
  text = JStr t ->
  PyStr.startswith t (lit "/start") = true ->
  telegram_webhook env (Some (JDict fields)) log
  = (match requests_post env (send_request env chat_id greeting JNull) with
     | Ret _ => Ret ack_ok
     | Raise e => Raise e
     end,
     log ++ [send_request env chat_id greeting JNull]).
Proof.
  intros Hstr Hstart. enter_handler Hsel Hchat Hid Htext Hmid.
  rewrite Hstr. cbn [truthy].
  rewrite (startswith_nonempty _ _ Hstart) by discriminate. cbn [negb].
  unfold py_startswith. rewrite Hstart.
  rewrite (bind_returns _ _ _ _ _ (lift_run _ _)).
  unfold bind. rewrite send_telegram_message_run.
  destruct (requests_post _ _); reflexivity.
Qed.

(** Lines 116-126. *)
Lemma telegram_webhook_question (t : str) :
  text = JStr t ->
  PyStr.nonempty t = true ->
  PyStr.startswith t (lit "/start") = false ->
  telegram_webhook env (Some (JDict fields)) log
  = (match requests_post env
             (send_request env chat_id
                (trim_response (generation_result env (build_prompt env text)))
                message_id) with
     | Ret r =>
         Ret (jsonify [ (lit "ok", JBool (resp_ok r));
                        (lit "raw", JStr (resp_text r)) ])
     | Raise e => Raise e
     end,
     log ++ [ gemini_request env (build_prompt env text);
              send_request env chat_id
                (trim_response (generation_result env (build_prompt env text)))
                message_id ]).
Proof.
  intros Hstr Hnonempty Hstart. enter_handler Hsel Hchat Hid Htext Hmid.
  rewrite Hstr. cbn [truthy]. rewrite Hnonempty. cbn [negb].
  unfold py_startswith. rewrite Hstart.
  rewrite (bind_returns _ _ _ _ _ (lift_run _ _)).
  rewrite (bind_returns _ _ _ _ _ (call_gemini_run _ _ _)).
  unfold bind. rewrite send_telegram_message_run, <- app_assoc.
  destruct (requests_post _ _); reflexivity.
Qed.

End handler_branches.

Lemma telegram_webhook_nothing_selected
    (env : Env) (fields : list (str * json)) (log : list Request) :
  truthy (selected_message fields) = false ->
  telegram_webhook env (Some (JDict fields)) log = (Ret ack_ok, log).
Proof.
  intros Hfalsy. unfold telegram_webhook.
  rewrite (bind_returns _ _ _ _ _ (select_message_dict _ _)), Hfalsy.
  reflexivity.
Qed.

Lemma telegram_webhook_chatless
    (env : Env) (fields mf : list (str * json)) (log : list Request) :
  selected_message fields = JDict mf ->
  mf <> [] ->
  dict_lookup (lit "chat") mf = None ->
  telegram_webhook env (Some (JDict fields)) log
  = (Raise (KeyError (lit "chat")), log).
Proof.
  intros Hsel Hmf Hchat. unfold telegram_webhook.
  rewrite (bind_returns _ _ _ _ _ (select_message_dict _ _)), Hsel.
  destruct mf as [| kv mf']; [contradiction |]. cbn [truthy negb].
  unfold py_getitem. rewrite Hchat. reflexivity.
Qed.

(** C8, as stated, fails: when the POST of the greeting raises, the handler
    has made its one send call and raises instead of returning an
    acknowledgment. *)
Lemma telegram_webhook_start_raises_when_offline :
  PyStr.startswith (lit "/start") (lit "/start") = true
  /\ run (telegram_webhook Demo.offline
            (Some (Demo.message_event (lit "/start"))))
     = (Raise (Exn "ConnectionError" (lit "connection refused")),
        [send_request Demo.offline (JInt 42) greeting JNull]).
Proof. split; reflexivity. Qed.

(** C8, amended: on a message with a chat id whose text begins with
    [/start] the handler makes exactly one outbound call, the send of the
    fixed greeting, whose payload has no reply field; it makes no
    generation call; and when that send call returns, with whatever
    status, the handler returns [{"ok": true}]. *)
Theorem telegram_webhook_start_command
    (env : Env) (fields mf : list (str * json)) (chat chat_id : json)
    (t : str) :
  selected_message fields = JDict mf ->
  dict_lookup (lit "chat") mf = Some chat ->
  py_getitem chat (lit "id") = Ret chat_id ->
  dict_lookup (lit "text") mf = Some (JStr t) ->
  PyStr.startswith t (lit "/start") = true ->
  snd (run (telegram_webhook env (Some (JDict fields))))
  = [send_request env chat_id greeting JNull]
  /\ req_json (send_request env chat_id greeting JNull)
     = JDict [ (lit "chat_id", chat_id); (lit "text", JStr greeting);
               (lit "parse_mode", JStr (lit "Markdown")) ]
  /\ (forall prompt_text,
         send_request env chat_id greeting JNull
         <> gemini_request env prompt_text)
  /\ (forall r,
         requests_post env (send_request env chat_id greeting JNull) = Ret r ->
         fst (run (telegram_webhook env (Some (JDict fields)))) = Ret ack_ok).
Proof.
  intros Hsel Hchat Hid Htext Hstart. unfold run.
  rewrite (telegram_webhook_start env fields mf chat chat_id (JStr t)
             (match dict_lookup (lit "message_id") mf with
              | Some v => v
              | None => JNull
              end) [] Hsel Hchat Hid) with (t := t);
    try reflexivity; try assumption.
  - repeat split.
    + intros prompt_text Heq.
      apply (f_equal req_timeout) in Heq. discriminate.
    + intros r Hpost. now rewrite Hpost.
  - cbn [py_get]. now rewrite Htext.
Qed.

Lemma telegram_webhook_start_command_witness :
  run (telegram_webhook (Demo.online Demo.answer)
         (Some (Demo.message_event (lit "/start now"))))
  = (Ret ack_ok,
     [send_request (Demo.online Demo.answer) (JInt 42) greeting JNull]).
Proof.
  destruct (telegram_webhook_start_command (Demo.online Demo.answer)
              (Demo.event_fields (lit "/start now"))
              (Demo.message_fields (lit "/start now"))
              (JDict [ (lit "id", JInt 42) ]) (JInt 42) (lit "/start now")
              eq_refl eq_refl eq_refl eq_refl eq_refl)
    as (Hlog & _ & _ & Hack).
  specialize (Hack (Demo.response Demo.answer) eq_refl).
  unfold Demo.message_event.
  destruct (run _) as [res log]. cbn [fst snd] in *. now subst.
Defined.

(** C2, as stated, fails: a well-formed event whose message has no chat
    makes the handler raise [KeyError] at line 102; nothing is returned. *)
Lemma telegram_webhook_raises_without_chat :
  run (telegram_webhook (Demo.online Demo.answer) (Some Demo.chatless_event))
  = (Raise (KeyError (lit "chat")), []).
Proof. reflexivity. Qed.

(** C2, amended: the handler returns an acknowledgment when the body does
    not decode (status 400), and on every update object whose selected
    message is absent or falsy, or carries a chat object with an id and a
    text that is absent, falsy or a string, provided the outbound send call
    returns.  On a message without the [chat] field it raises [KeyError]
    before any outbound call. *)
Theorem telegram_webhook_acknowledges (env : Env) (body : option json) :
  ((forall update, body = Some update -> well_formed_update update = true) ->
   (forall chat_id text reply, exists r,
       requests_post env (send_request env chat_id text reply) = Ret r) ->
   exists ack log, run (telegram_webhook env body) = (Ret ack, log))
  /\ (forall fields mf,
         body = Some (JDict fields) ->
         selected_message fields = JDict mf ->
         mf <> [] ->
         dict_lookup (lit "chat") mf = None ->
         run (telegram_webhook env body) = (Raise (KeyError (lit "chat")), [])).
Proof.
  split.
  - intros Hwf Hsend. unfold run.
    destruct body as [update |]; [| now exists ack_bad_request, []].
    specialize (Hwf update eq_refl).
    destruct update as [ | | | | | | fields ]; try discriminate.
    unfold well_formed_update in Hwf.
    apply orb_true_iff in Hwf as [Hnone | Hshape].
    { apply negb_true_iff in Hnone.
      rewrite telegram_webhook_nothing_selected by assumption. eauto. }
    apply andb_true_iff in Hshape as [Hchat Htext].
    unfold has_chat_id, text_is_str_or_falsy in *.
    destruct (selected_message fields) as [ | | | | | | mf ] eqn:Hsel;
      try discriminate.
    cbn [py_getitem] in Hchat.
    destruct (dict_lookup (lit "chat") mf) as [chat |] eqn:Hlookup;
      [| discriminate].
    destruct (py_getitem chat (lit "id")) as [chat_id |] eqn:Hid;
      [| discriminate].
    destruct (py_get (JDict mf) (lit "text") (JStr [])) as [text |] eqn:Hget;
      [| discriminate].
    assert (Hmid : py_get (JDict mf) (lit "message_id") JNull
                   = Ret (match dict_lookup (lit "message_id") mf with
                          | Some v => v
                          | None => JNull
                          end)) by reflexivity.
    destruct (truthy text) eqn:Htruthy.
    + destruct text as [ | | | | t | | ]; cbn [negb] in Htext;
        try discriminate.
      destruct (PyStr.startswith t (lit "/start")) eqn:Hstart.
      * rewrite (telegram_webhook_start env fields mf chat chat_id (JStr t)
                   _ [] Hsel Hlookup Hid Hget Hmid t eq_refl Hstart).
        destruct (Hsend chat_id greeting JNull) as [r ->]. eauto.
      * rewrite (telegram_webhook_question env fields mf chat chat_id (JStr t)
                   _ [] Hsel Hlookup Hid Hget Hmid t eq_refl Htruthy Hstart).
        match goal with
        | |- context [requests_post env (send_request env ?c ?x ?m)] =>
            destruct (Hsend c x m) as [r ->]
        end.
        eauto.
    + rewrite (telegram_webhook_no_text env fields mf chat chat_id text
                 _ [] Hsel Hlookup Hid Hget Hmid Htruthy).
      match goal with
      | |- context [requests_post env (send_request env ?c ?x ?m)] =>
          destruct (Hsend c x m) as [r ->]
      end.
      eauto.
  - intros fields mf -> Hsel Hmf Hchat. unfold run.
    now apply telegram_webhook_chatless with (mf := mf).
Qed.

Lemma telegram_webhook_acknowledges_witness :
  (exists ack log,
      run (telegram_webhook (Demo.online Demo.answer)
             (Some (Demo.message_event (lit "What is gravity?"))))
      = (Ret ack, log))
  /\ run (telegram_webhook (Demo.online Demo.answer)
            (Some Demo.chatless_event))
     = (Raise (KeyError (lit "chat")), []).
Proof.
  split.
  - apply (proj1 (telegram_webhook_acknowledges (Demo.online Demo.answer)
                    (Some (Demo.message_event (lit "What is gravity?"))))).
    + intros update [= <-]. reflexivity.
    + intros chat_id text reply. eexists. reflexivity.
  - apply (proj2 (telegram_webhook_acknowledges (Demo.online Demo.answer)
                    (Some Demo.chatless_event))
             [ (lit "message", JDict Demo.chatless_fields) ]
             Demo.chatless_fields eq_refl eq_refl).
    + discriminate.
    + reflexivity.
Defined.

(** The scenario of the specification: the question goes to the backend
    once, the answer is sent once as a reply to message 7, and the
    acknowledgment carries the outcome of the send. *)
Example gravity_scenario :
  run (telegram_webhook (Demo.online Demo.answer)
         (Some (Demo.message_event (lit "What is gravity?"))))
  = (Ret (jsonify [ (lit "ok", JBool true); (lit "raw", JStr (lit "{}")) ]),
     [ gemini_request (Demo.online Demo.answer)
         (lit "User asked: What is gravity?" ++ [10%N]
            ++ lit "Provide a short helpful explanation.");
       send_request (Demo.online Demo.answer) (JInt 42) (lit "hello")
         (JInt 7) ]).
Proof. reflexivity. Qed.

(** No text at all has the three properties that the specification asks
    of the delivered text for the 4001 letters of [Demo.long_text]: a text
    of length 4000 that ends with the marker has the marker's first
    character at position 3986, where the source has a letter. *)
Lemma no_text_of_length_4000_fits :
  ~ exists out : str,
      List.length out = 4000
      /\ (exists before, out = before ++ lit "...[truncated]")
      /\ firstn 3990 out = firstn 3990 Demo.long_text.
Proof.
  intros (out & Hlen & (before & ->) & Hpre).
  rewrite length_app in Hlen.
  change (List.length (lit "...[truncated]")) with 14 in Hlen.
  assert (Hbefore : List.length before = 3986) by lia.
  apply (f_equal (fun l => nth_error l 3986)) in Hpre.
  rewrite !nth_error_firstn in Hpre.
  replace (Nat.ltb 3986 3990) with true in Hpre by reflexivity.
  rewrite nth_error_app2, Hbefore, Nat.sub_diag in Hpre by lia.
  unfold Demo.long_text in Hpre.
  rewrite nth_error_repeat in Hpre by lia.
  discriminate.
Qed.

(** Two more shapes on which the handler raises: a body that decodes to
    something other than an object has no [get] (line 98), and a truthy
    text that is not a string has no [startswith] (line 111). *)
Example telegram_webhook_raises_on_list_body :
  run (telegram_webhook Demo.offline (Some (JList [])))
  = (Raise (AttributeError (JList []) "get"), []).
Proof. reflexivity. Qed.

Example telegram_webhook_raises_on_numeric_text :
  run (telegram_webhook Demo.offline
         (Some (JDict [ (lit "message",
                         JDict [ (lit "chat", JDict [ (lit "id", JInt 42) ]);
                                 (lit "text", JInt 5) ]) ])))
  = (Raise (AttributeError (JInt 5) "startswith"), []).
Proof. reflexivity. Qed.

(** The serialisations on a small document. *)
Example json_dumps_sample :
  json_dumps Demo.offline
    (JDict [ (lit "a", JList [ JInt 1; JInt (-2); JNull; JBool true ]);
             (lit "b", JDict []) ])
  = [123; 34; 97; 34; 58; 32; 91; 49; 44; 32; 45; 50; 44; 32; 110; 117; 108;
     108; 44; 32; 116; 114; 117; 101; 93; 44; 32; 34; 98; 34; 58; 32; 123;
     125; 125]%N.
Proof. reflexivity. Qed.

Example py_str_sample :
  py_str Demo.offline (JList [ JDict [ (lit "k", JNull) ]; JInt 0; JBool false ])
  = lit "[{'k': None}, 0, False]".
Proof. reflexivity. Qed.

(** ** Every run of the handler *)

Lemma telegram_webhook_no_chat_object
    (env : Env) (fields : list (str * json)) (e : exn) (log : list Request) :
  truthy (selected_message fields) = true ->
  py_getitem (selected_message fields) (lit "chat") = Raise e ->
  telegram_webhook env (Some (JDict fields)) log = (Raise e, log).
Proof.
  intros Htruthy Hchat. unfold telegram_webhook.
  rewrite (bind_returns _ _ _ _ _ (select_message_dict _ _)), Htruthy.
  cbn [negb]. rewrite Hchat. reflexivity.
Qed.

Lemma telegram_webhook_no_chat_id
    (env : Env) (fields : list (str * json)) (chat : json) (e : exn)
    (log : list Request) :
  truthy (selected_message fields) = true ->
  py_getitem (selected_message fields) (lit "chat") = Ret chat ->
  py_getitem chat (lit "id") = Raise e ->
  telegram_webhook env (Some (JDict fields)) log = (Raise e, log).
Proof.
  intros Htruthy Hchat Hid. unfold telegram_webhook.
  rewrite (bind_returns _ _ _ _ _ (select_message_dict _ _)), Htruthy.
  cbn [negb]. rewrite Hchat.
  rewrite (bind_returns _ _ _ _ _ (lift_run _ _)), Hid. reflexivity.
Qed.

Lemma telegram_webhook_text_not_str
    (env : Env) (fields mf : list (str * json)) (chat chat_id text : json)
    (e : exn) (log : list Request) :
  selected_message fields = JDict mf ->
  dict_lookup (lit "chat") mf = Some chat ->
  py_getitem chat (lit "id") = Ret chat_id ->
  py_get (JDict mf) (lit "text") (JStr []) = Ret text ->
  truthy text = true ->
  py_startswith text (lit "/start") = Raise e ->
  telegram_webhook env (Some (JDict fields)) log = (Raise e, log).
Proof.
  intros Hsel Hchat Hid Htext Htruthy Hstart.
  assert (Hmid : py_get (JDict mf) (lit "message_id") JNull
                 = Ret (match dict_lookup (lit "message_id") mf with
                        | Some v => v
                        | None => JNull
                        end)) by reflexivity.
  enter_handler Hsel Hchat Hid Htext Hmid.
  rewrite Htruthy. cbn [negb]. rewrite Hstart. reflexivity.
Qed.

Lemma telegram_webhook_runs (env : Env) (body : option json) :
  webhook_run env body
    (fst (run (telegram_webhook env body)))
    (snd (run (telegram_webhook env body))).
Proof.
  unfold run. destruct body as [update |]; [| apply RunUndecodable].
  destruct update as [ | b | z | f | s | items | fields ];
    try (apply RunRaisesEarly; reflexivity).
  destruct (truthy (selected_message fields)) eqn:Htruthy.
  2:{ rewrite telegram_webhook_nothing_selected by assumption.
      apply RunIgnored. unfold well_formed_update. now rewrite Htruthy. }
  destruct (py_getitem (selected_message fields) (lit "chat"))
    as [chat | e] eqn:Hchat.
  2:{ rewrite (telegram_webhook_no_chat_object env fields e [] Htruthy Hchat).
      apply RunRaisesEarly. unfold well_formed_update, has_chat_id.
      now rewrite Htruthy, Hchat. }
  destruct (py_getitem chat (lit "id")) as [chat_id | e] eqn:Hid.
  2:{ rewrite (telegram_webhook_no_chat_id env fields chat e [] Htruthy
                 Hchat Hid).
      apply RunRaisesEarly. unfold well_formed_update, has_chat_id.
      now rewrite Htruthy, Hchat, Hid. }
  destruct (selected_message fields) as [ | | | | | | mf ] eqn:Hsel;
    try discriminate.
  assert (Hlookup : dict_lookup (lit "chat") mf = Some chat).
  { cbn [py_getitem] in Hchat.
    destruct (dict_lookup (lit "chat") mf); congruence. }
  assert (Hwf : forall text,
             py_get (JDict mf) (lit "text") (JStr []) = Ret text ->
             text_is_str_or_falsy (JDict mf) = true ->
             well_formed_update (JDict fields) = true).
  { intros text Htext Hok. unfold well_formed_update, has_chat_id.
    rewrite Hsel, Htruthy, Hchat, Hid, Hok. reflexivity. }
  pose (text := match dict_lookup (lit "text") mf with
                | Some v => v
                | None => JStr []
                end).
  pose (message_id := match dict_lookup (lit "message_id") mf with
                      | Some v => v
                      | None => JNull
                      end).
  assert (Htext : py_get (JDict mf) (lit "text") (JStr []) = Ret text)
    by reflexivity.
  assert (Hmid : py_get (JDict mf) (lit "message_id") JNull = Ret message_id)
    by reflexivity.
  clearbody text message_id.
  destruct (truthy text) eqn:Htext_truthy.
  2:{ rewrite (telegram_webhook_no_text env fields mf chat chat_id text
                 message_id [] Hsel Hlookup Hid Htext Hmid Htext_truthy).
      cbn [fst snd app]. apply RunFixedReply; [| now left].
      apply (Hwf text Htext). unfold text_is_str_or_falsy. rewrite Htext.
      destruct text; try reflexivity; cbv iota; now rewrite Htext_truthy. }
  destruct (py_startswith text (lit "/start")) as [is_start | e] eqn:Hstart.
  2:{ rewrite (telegram_webhook_text_not_str env fields mf chat chat_id text
                 e [] Hsel Hlookup Hid Htext Htext_truthy Hstart).
      apply RunRaisesEarly. unfold well_formed_update, has_chat_id.
      rewrite Hsel, Htruthy, Hchat, Hid. unfold text_is_str_or_falsy.
      rewrite Htext.
      destruct text; try discriminate; cbv iota; now rewrite Htext_truthy. }
  destruct text as [ | | | | t | | ] eqn:Htext_eq; try discriminate.
  cbn [py_startswith] in Hstart. injection Hstart as Hstart.
  assert (Hok : well_formed_update (JDict fields) = true).
  { apply (Hwf (JStr t) Htext). unfold text_is_str_or_falsy.
    now rewrite Htext. }
  destruct is_start.
  - rewrite (telegram_webhook_start env fields mf chat chat_id (JStr t)
               message_id [] Hsel Hlookup Hid Htext Hmid t eq_refl Hstart).
    cbn [fst snd app]. apply RunFixedReply; [exact Hok | now right].
  - rewrite (telegram_webhook_question env fields mf chat chat_id (JStr t)
               message_id [] Hsel Hlookup Hid Htext Hmid t eq_refl
               Htext_truthy Hstart).
    cbn [fst snd app]. apply RunAnswer. exact Hok.
Qed.

Lemma trim_response_length_le (s : str) :
  List.length (trim_response s) <= 4006.
Proof.
  unfold trim_response, PyStr.upto.
  destruct (Nat.ltb 4000 (List.length s)) eqn:Hlong.
  - rewrite length_app, truncation_suffix_length.
    pose proof (firstn_le_length 3990 s). lia.
  - apply Nat.ltb_ge in Hlong. lia.
Qed.

(** X1: whatever the body and whatever the network does, the handler
    makes no outbound call, or one send call, or one generation call
    followed by one send call; never more, and never a generation call that
    is not followed by a send. *)
Theorem telegram_webhook_call_discipline (env : Env) (body : option json) :
  snd (run (telegram_webhook env body)) = []
  \/ (exists chat_id text reply,
         snd (run (telegram_webhook env body))
         = [send_request env chat_id text reply])
  \/ (exists prompt chat_id text reply,
         snd (run (telegram_webhook env body))
         = [gemini_request env prompt; send_request env chat_id text reply]).
Proof.
  pose proof (telegram_webhook_runs env body) as Hrun.
  destruct (run (telegram_webhook env body)) as [res log].
  cbn [fst snd] in *.
  inversion Hrun; subst; eauto 8.
Qed.

(** X2: every text the handler sends has at most 4006 characters: each
    request in its log is the generation request or a send request whose
    text is that short. *)
Theorem telegram_webhook_sends_bounded_text
    (env : Env) (body : option json) (req : Request) :
  In req (snd (run (telegram_webhook env body))) ->
  (exists prompt, req = gemini_request env prompt)
  \/ (exists chat_id text reply,
         req = send_request env chat_id text reply
         /\ List.length text <= 4006).
Proof.
  pose proof (telegram_webhook_runs env body) as Hrun.
  destruct (run (telegram_webhook env body)) as [res log].
  cbn [fst snd] in *. intros Hin.
  inversion Hrun as
    [ | update e Hwf | update Hwf
      | update chat_id text reply Hwf Htext
      | update user_text chat_id reply Hwf ]; subst; cbn [In] in Hin.
  - contradiction.
  - contradiction.
  - contradiction.
  - destruct Hin as [<- | []]. right. exists chat_id, text, reply.
    split; [reflexivity |].
    destruct Htext as [-> | [-> _]]; vm_compute; lia.
  - destruct Hin as [<- | [<- | []]]; [left; eauto |].
    right. do 3 eexists. split; [reflexivity |].
    apply trim_response_length_le.
Qed.

Lemma telegram_webhook_sends_bounded_text_witness :
  (exists prompt,
      send_request (Demo.online Demo.answer) (JInt 42) (lit "hello") (JInt 7)
      = gemini_request (Demo.online Demo.answer) prompt)
  \/ (exists chat_id text reply,
         send_request (Demo.online Demo.answer) (JInt 42) (lit "hello") (JInt 7)
         = send_request (Demo.online Demo.answer) chat_id text reply
         /\ List.length text <= 4006).
Proof.
  apply (telegram_webhook_sends_bounded_text (Demo.online Demo.answer)
           (Some (Demo.message_event (lit "What is gravity?")))).
  right. left. reflexivity.
Defined.

(** X3: the acknowledgment has status 400 exactly when the body does not
    decode; every other acknowledgment the handler returns has status
    200, whatever the outcome of the delivery. *)
Theorem telegram_webhook_status
    (env : Env) (body : option json) (ack : FlaskResponse) :
  fst (run (telegram_webhook env body)) = Ret ack ->
  (body = None /\ ack = ack_bad_request /\ resp_status ack = 400%Z)
  \/ (body <> None /\ resp_status ack = 200%Z).
Proof.
  pose proof (telegram_webhook_runs env body) as Hrun.
  destruct (run (telegram_webhook env body)) as [res log].
  cbn [fst snd] in *. intros ->.
  inversion Hrun; subst;
    [ left; repeat split | right; split; [discriminate |] .. ].
  - reflexivity.
  - match goal with
    | H : match ?p with _ => _ end = Ret _ |- _ =>
        destruct p; [now injection H as <- | discriminate]
    end.
  - match goal with
    | H : match ?p with _ => _ end = Ret _ |- _ =>
        destruct p; [now injection H as <- | discriminate]
    end.
Qed.

Lemma telegram_webhook_status_witness :
  (Some (Demo.message_event (lit "What is gravity?")) = None
   /\ jsonify [ (lit "ok", JBool true); (lit "raw", JStr (lit "{}")) ]
      = ack_bad_request
   /\ resp_status
        (jsonify [ (lit "ok", JBool true); (lit "raw", JStr (lit "{}")) ])
      = 400%Z)
  \/ (Some (Demo.message_event (lit "What is gravity?")) <> None
      /\ resp_status
           (jsonify [ (lit "ok", JBool true); (lit "raw", JStr (lit "{}")) ])
         = 200%Z).
Proof.
  exact (telegram_webhook_status (Demo.online Demo.answer)
           (Some (Demo.message_event (lit "What is gravity?")))
           (jsonify [ (lit "ok", JBool true); (lit "raw", JStr (lit "{}")) ])
           eq_refl).
Defined.

(** X4: when the handler raises after an outbound call, the exception is
    the one raised by the POST of its send call, the last call in the log;
    a failure of the generation call never leaves the handler. *)
Theorem telegram_webhook_raises_only_from_send
    (env : Env) (body : option json) (e : exn) :
  fst (run (telegram_webhook env body)) = Raise e ->
  snd (run (telegram_webhook env body)) = []
  \/ (exists before chat_id text reply,
         snd (run (telegram_webhook env body))
         = before ++ [send_request env chat_id text reply]
         /\ requests_post env (send_request env chat_id text reply) = Raise e).
Proof.
  pose proof (telegram_webhook_runs env body) as Hrun.
  destruct (run (telegram_webhook env body)) as [res log].
  cbn [fst snd] in *. intros ->.
  inversion Hrun; subst; [now left | right ..].
  - exists [], chat_id, text, reply. split; [reflexivity |].
    match goal with
    | H : match ?p with _ => _ end = Raise _ |- _ =>
        destruct p; [discriminate | congruence]
    end.
  - eexists [_], chat_id, _, reply. split; [reflexivity |].
    match goal with
    | H : match ?p with _ => _ end = Raise _ |- _ =>
        destruct p; [discriminate | congruence]
    end.
Qed.

Lemma telegram_webhook_raises_only_from_send_witness :
  snd (run (telegram_webhook Demo.offline
              (Some (Demo.message_event (lit "What is gravity?"))))) = []
  \/ (exists before chat_id text reply,
         snd (run (telegram_webhook Demo.offline
                     (Some (Demo.message_event (lit "What is gravity?")))))
         = before ++ [send_request Demo.offline chat_id text reply]
         /\ requests_post Demo.offline
              (send_request Demo.offline chat_id text reply)
            = Raise (Exn "ConnectionError" (lit "connection refused"))).
Proof.
  exact (telegram_webhook_raises_only_from_send Demo.offline
           (Some (Demo.message_event (lit "What is gravity?")))
           (Exn "ConnectionError" (lit "connection refused")) eq_refl).
Defined.

(** X5: the handler raises before any outbound call exactly on the
    updates that are not well formed (no object, a message without chat id,
    a truthy text that is no string); on those nothing is sent and nothing
    is generated. *)
Theorem telegram_webhook_fails_early_iff (env : Env) (update : json) :
  well_formed_update update = false
  <-> exists e, run (telegram_webhook env (Some update)) = (Raise e, []).
Proof.
  pose proof (telegram_webhook_runs env (Some update)) as Hrun.
  destruct (run (telegram_webhook env (Some update))) as [res log].
  cbn [fst snd] in *.
  split.
  - intros Hwf. inversion Hrun; subst; try congruence. eauto.
  - intros [e Heq]. injection Heq as -> ->.
    inversion Hrun; subst. assumption.
Qed.

Lemma telegram_webhook_fails_early_iff_witness :
  exists e,
    run (telegram_webhook Demo.offline (Some Demo.chatless_event))
    = (Raise e, []).
Proof.
  exact (proj1 (telegram_webhook_fails_early_iff Demo.offline
                  Demo.chatless_event) eq_refl).
Defined.

(** ** The branches of the handler *)

Section message_with_chat.
Context (env : Env) (fields mf : list (str * json)) (chat chat_id : json).
Hypothesis Hsel : selected_message fields = JDict mf.
Hypothesis Hchat : dict_lookup (lit "chat") mf = Some chat.
Hypothesis Hid : py_getitem chat (lit "id") = Ret chat_id.

Let message_id : json :=
  match dict_lookup (lit "message_id") mf with Some v => v | None => JNull end.

(** X6: on a message with a chat id whose text is absent or falsy (a
    photo, a sticker, an empty string) the handler makes exactly one
    outbound call, the send of the fixed notice as a reply to the message
    id of the event; it returns [{"ok": true}] when that call returns and
    raises what the call raises otherwise. *)
Theorem telegram_webhook_text_only_notice :
  truthy (match dict_lookup (lit "text") mf with
          | Some v => v
          | None => JStr []
          end) = false ->
  snd (run (telegram_webhook env (Some (JDict fields))))
  = [send_request env chat_id text_only_notice
       (match dict_lookup (lit "message_id") mf with
        | Some v => v
        | None => JNull
        end)]
  /\ fst (run (telegram_webhook env (Some (JDict fields))))
     = match requests_post env
               (send_request env chat_id text_only_notice
                  (match dict_lookup (lit "message_id") mf with
                   | Some v => v
                   | None => JNull
                   end)) with
       | Ret _ => Ret ack_ok
       | Raise e => Raise e
       end.
Proof.
  intros Hfalsy. unfold run.
  rewrite (telegram_webhook_no_text env fields mf chat chat_id _ message_id
             [] Hsel Hchat Hid eq_refl eq_refl Hfalsy).
  split; reflexivity.
Qed.

(** X7: on a message with a chat id whose text is a non-empty string that
    does not begin with [/start], the handler makes two outbound calls in
    this order: the generation call with the text wrapped in the fixed
    template, and the send of the trimmed generation result as a reply to
    the message id.  When the send returns, the acknowledgment has status
    200 and carries the [ok] flag and the body of Telegram's response, also
    when that flag is false. *)
Theorem telegram_webhook_answers_question (t : str) :
  dict_lookup (lit "text") mf = Some (JStr t) ->
  t <> [] ->
  PyStr.startswith t (lit "/start") = false ->
  let prompt :=
    lit "User asked: " ++ t ++ [10%N]
      ++ lit "Provide a short helpful explanation." in
  let reply := trim_response (generation_result env prompt) in
  let mid := match dict_lookup (lit "message_id") mf with
             | Some v => v
             | None => JNull
             end in
  snd (run (telegram_webhook env (Some (JDict fields))))
  = [gemini_request env prompt; send_request env chat_id reply mid]
  /\ forall r,
       requests_post env (send_request env chat_id reply mid) = Ret r ->
       fst (run (telegram_webhook env (Some (JDict fields))))
       = Ret {| resp_body := JDict [ (lit "ok", JBool (resp_ok r));
                                     (lit "raw", JStr (resp_text r)) ];
                resp_status := 200 |}.
Proof.
  intros Htext Hne Hstart. cbv zeta. unfold run.
  rewrite (telegram_webhook_question env fields mf chat chat_id (JStr t)
             message_id [] Hsel Hchat Hid) with (t := t);
    try reflexivity; try assumption.
  - split; [reflexivity |]. intros r Hpost. cbn [fst].
    change (build_prompt env (JStr t))
      with (lit "User asked: " ++ t ++ [10%N]
              ++ lit "Provide a short helpful explanation.").
    unfold message_id. now rewrite Hpost.
  - cbn [py_get]. now rewrite Htext.
  - destruct t; [contradiction | reflexivity].
Qed.

(** X8: when the generation call fails with [e] (the POST raises, the
    status check raises or the body does not parse) the handler still makes
    its send call, and the text it sends to the chat is the error marker
    followed by [str(e)], trimmed like every generation result. *)
Theorem telegram_webhook_delivers_generation_failure (t : str) (e : exn) :
  dict_lookup (lit "text") mf = Some (JStr t) ->
  t <> [] ->
  PyStr.startswith t (lit "/start") = false ->
  gemini_failure env (build_prompt env (JStr t)) e ->
  snd (run (telegram_webhook env (Some (JDict fields))))
  = [ gemini_request env (build_prompt env (JStr t));
      send_request env chat_id
        (trim_response (lit "[error calling Gemini] " ++ exn_str e))
        (match dict_lookup (lit "message_id") mf with
         | Some v => v
         | None => JNull
         end) ].
Proof.
  intros Htext Hne Hstart Hfail. unfold run.
  rewrite (telegram_webhook_question env fields mf chat chat_id (JStr t)
             message_id [] Hsel Hchat Hid) with (t := t);
    try reflexivity; try assumption.
  - cbn [snd app]. now rewrite (generation_result_failure _ _ _ Hfail).
  - cbn [py_get]. now rewrite Htext.
  - destruct t; [contradiction | reflexivity].
Qed.

End message_with_chat.

Lemma telegram_webhook_text_only_notice_witness :
  snd (run (telegram_webhook (Demo.online Demo.answer)
              (Some (JDict Sample.photo_event_fields))))
  = [send_request (Demo.online Demo.answer) (JInt 42) text_only_notice
       (JInt 7)].
Proof.
  exact (proj1 (telegram_webhook_text_only_notice (Demo.online Demo.answer)
                  Sample.photo_event_fields Sample.photo_fields
                  (JDict [ (lit "id", JInt 42) ]) (JInt 42)
                  eq_refl eq_refl eq_refl eq_refl)).
Defined.

Lemma telegram_webhook_answers_question_witness :
  snd (run (telegram_webhook (Demo.online Demo.answer)
              (Some (Demo.message_event (lit "What is gravity?")))))
  = [ gemini_request (Demo.online Demo.answer)
        (lit "User asked: What is gravity?" ++ [10%N]
           ++ lit "Provide a short helpful explanation.");
      send_request (Demo.online Demo.answer) (JInt 42) (lit "hello")
        (JInt 7) ].
Proof.
  refine (proj1 (telegram_webhook_answers_question (Demo.online Demo.answer)
                   (Demo.event_fields (lit "What is gravity?"))
                   (Demo.message_fields (lit "What is gravity?"))
                   (JDict [ (lit "id", JInt 42) ]) (JInt 42)
                   eq_refl eq_refl eq_refl (lit "What is gravity?")
                   eq_refl _ eq_refl)).
  discriminate.
Defined.

Lemma telegram_webhook_delivers_generation_failure_witness :
  snd (run (telegram_webhook Sample.backend_down
              (Some (Demo.message_event (lit "What is gravity?")))))
  = [ gemini_request Sample.backend_down
        (lit "User asked: What is gravity?" ++ [10%N]
           ++ lit "Provide a short helpful explanation.");
      send_request Sample.backend_down (JInt 42)
        (lit "[error calling Gemini] 503 Server Error: Service Unavailable")
        (JInt 7) ].
Proof.
  refine (telegram_webhook_delivers_generation_failure Sample.backend_down
            (Demo.event_fields (lit "What is gravity?"))
            (Demo.message_fields (lit "What is gravity?"))
            (JDict [ (lit "id", JInt 42) ]) (JInt 42)
            eq_refl eq_refl eq_refl (lit "What is gravity?")
            Sample.unavailable eq_refl _ eq_refl _).
  - discriminate.
  - eapply ErrorStatus; reflexivity.
Defined.

Lemma bind_lift {A B : Type} (o : outcome A) (k : A -> M B)
    (log : list Request) :
  bind (lift o) k log
  = match o with
    | Ret a => k a log
    | Raise e => (Raise e, log)
    end.
Proof. destruct o; reflexivity. Qed.

(** X9: an update that has no [message] field and carries [m] as its
    [edited_message] is handled exactly like the update that carries [m] as
    its [message]: the same outcome and the same outbound calls. *)
Theorem telegram_webhook_edited_like_new
    (env : Env) (fields : list (str * json)) (m : json)
    (log : list Request) :
  dict_lookup (lit "message") fields = None ->
  dict_lookup (lit "edited_message") fields = Some m ->
  telegram_webhook env (Some (JDict fields)) log
  = telegram_webhook env (Some (JDict [ (lit "message", m) ])) log.
Proof.
  intros Hm He.
  assert (Hsel : selected_message fields = m)
    by (unfold selected_message; now rewrite Hm, He).
  destruct (truthy m) eqn:Htruthy.
  - apply telegram_webhook_selected. rewrite Hsel.
    unfold selected_message. cbn. now rewrite Htruthy.
  - rewrite !telegram_webhook_nothing_selected; [reflexivity | |].
    + unfold selected_message. cbn. now rewrite Htruthy.
    + now rewrite Hsel.
Qed.

Lemma telegram_webhook_edited_like_new_witness :
  telegram_webhook (Demo.online Demo.answer)
    (Some (JDict [ (lit "update_id", JInt 1);
                   (lit "edited_message", Demo.edited) ])) []
  = telegram_webhook (Demo.online Demo.answer)
      (Some (JDict [ (lit "message", Demo.edited) ])) [].
Proof.
  exact (telegram_webhook_edited_like_new (Demo.online Demo.answer)
           [ (lit "update_id", JInt 1); (lit "edited_message", Demo.edited) ]
           Demo.edited [] eq_refl eq_refl).
Defined.

(** X10: of a message object the handler reads the chat id, the text and
    the message id and nothing else: two updates whose selected messages
    are non-empty objects that agree on [message["chat"]["id"]], on
    [message.get("text", "")] and on [message.get("message_id")] have the
    same outcome and the same outbound calls. *)
Theorem telegram_webhook_reads_three_fields
    (env : Env) (fields fields' mf mf' : list (str * json))
    (log : list Request) :
  selected_message fields = JDict mf ->
  selected_message fields' = JDict mf' ->
  mf <> [] ->
  mf' <> [] ->
  match py_getitem (JDict mf) (lit "chat") with
  | Ret chat => py_getitem chat (lit "id")
  | Raise e => Raise e
  end
  = match py_getitem (JDict mf') (lit "chat") with
    | Ret chat => py_getitem chat (lit "id")
    | Raise e => Raise e
    end ->
  py_get (JDict mf) (lit "text") (JStr [])
  = py_get (JDict mf') (lit "text") (JStr []) ->
  py_get (JDict mf) (lit "message_id") JNull
  = py_get (JDict mf') (lit "message_id") JNull ->
  telegram_webhook env (Some (JDict fields)) log
  = telegram_webhook env (Some (JDict fields')) log.
Proof.
  intros Hsel Hsel' Hne Hne' Hid Htext Hmid.
  unfold telegram_webhook.
  rewrite !(bind_returns _ _ _ _ _ (select_message_dict _ log)), Hsel, Hsel'.
  assert (Ht : truthy (JDict mf) = true)
    by (destruct mf; [contradiction | reflexivity]).
  assert (Ht' : truthy (JDict mf') = true)
    by (destruct mf'; [contradiction | reflexivity]).
  rewrite Ht, Ht'. cbn [negb].
  rewrite Htext, Hmid, !bind_lift.
  destruct (py_getitem (JDict mf) (lit "chat")) as [chat | e];
    destruct (py_getitem (JDict mf') (lit "chat")) as [chat' | e'];
    rewrite ?bind_lift.
  - now rewrite Hid.
  - now rewrite Hid.
  - now rewrite <- Hid.
  - congruence.
Qed.

Lemma telegram_webhook_reads_three_fields_witness :
  telegram_webhook (Demo.online Demo.answer)
    (Some (JDict [ (lit "message",
                    JDict (Demo.message_fields (lit "hi")
                             ++ [ (lit "date", JInt 1700000000) ])) ])) []
  = telegram_webhook (Demo.online Demo.answer)
      (Some (Demo.message_event (lit "hi"))) [].
Proof.
  refine (telegram_webhook_reads_three_fields (Demo.online Demo.answer)
            [ (lit "message",
               JDict (Demo.message_fields (lit "hi")
                        ++ [ (lit "date", JInt 1700000000) ])) ]
            (Demo.event_fields (lit "hi"))
            (Demo.message_fields (lit "hi")
               ++ [ (lit "date", JInt 1700000000) ])
            (Demo.message_fields (lit "hi")) []
            eq_refl eq_refl _ _ eq_refl eq_refl eq_refl); discriminate.
Defined.

(** ** More on the extractor *)

Lemma first_truthy_map {A B : Type} (f : A -> B) (find : B -> option str)
    (l : list A) :
  first_truthy (fun x => find (f x)) l = first_truthy find (map f l).
Proof.
  induction l as [| x rest IH]; [reflexivity |].
  cbn [first_truthy map]. now rewrite IH.
Qed.

(** X11: the keys of an object play no part in the search: an object is
    searched exactly like the sequence of its values, so a value stored
    under [text] has no precedence over a string stored before it. *)
Theorem find_text_ignores_keys (fields : list (str * json)) :
  find_text (JDict fields) = find_text (JList (map snd fields)).
Proof.
  cbn [find_text]. apply (first_truthy_map snd find_text).
Qed.

Lemma hd_filter_some {A : Type} (f : A -> bool) (l : list A) (x : A) :
  hd_error (filter f l) = Some x -> In x l /\ f x = true.
Proof.
  intros H. assert (Hin : In x (filter f l)).
  { destruct (filter f l); [discriminate |]. injection H as ->. now left. }
  now apply filter_In in Hin.
Qed.

Lemma hd_filter_none {A : Type} (f : A -> bool) (l : list A) :
  hd_error (filter f l) = None <-> forall x, In x l -> f x = false.
Proof.
  induction l as [| a l IH]; cbn.
  - split; [intros _ x [] | reflexivity].
  - destruct (f a) eqn:Hfa; cbn.
    + split; [discriminate |]. intros H. specialize (H a (or_introl eq_refl)).
      congruence.
    + rewrite IH. split.
      * intros H x [<- | Hin]; auto.
      * intros H x Hin. apply H. now right.
Qed.

(** X12: what the search over an object or a sequence returns is one of
    the string values of the document, and it returns nothing exactly when
    every string value of the document is empty. *)
Theorem find_text_sound_and_complete (d : json) :
  d <> JStr [] ->
  (forall s, find_text d = Some s -> In s (strings_dfs d) /\ s <> [])
  /\ (find_text d = None <-> forall s, In s (strings_dfs d) -> s = []).
Proof.
  intros Hd.
  assert (Heq : find_text d = hd_error (filter PyStr.nonempty (strings_dfs d))).
  { destruct d as [ | | | | s | items | fields ]; try reflexivity.
    - destruct s; [contradiction | reflexivity].
    - apply find_text_list.
    - apply find_text_dict. }
  rewrite Heq. split.
  - intros s Hs. apply hd_filter_some in Hs as [Hin Hne].
    split; [assumption |]. destruct s; [discriminate | discriminate].
  - rewrite hd_filter_none. split; intros H s Hin; specialize (H s Hin).
    + destruct s; [reflexivity | discriminate].
    + now subst.
Qed.

Lemma find_text_sound_and_complete_witness :
  In (lit "hello") (strings_dfs Demo.answer) /\ lit "hello" <> [].
Proof.
  refine (proj1 (find_text_sound_and_complete Demo.answer _) (lit "hello")
            eq_refl).
  discriminate.
Defined.

(** X13: searching a sequence that is the concatenation of two is
    searching the first and, only when that gives nothing, the second. *)
Theorem find_text_list_app (l1 l2 : list json) :
  find_text (JList (l1 ++ l2))
  = match find_text (JList l1) with
    | Some s => Some s
    | None => find_text (JList l2)
    end.
Proof.
  cbn [find_text]. induction l1 as [| x rest IH]; [reflexivity |].
  cbn [app first_truthy].
  destruct (res_truthy (find_text x)) eqn:Hres; [| exact IH].
  destruct (find_text x); [reflexivity | discriminate].
Qed.

(** ** More on the truncation *)

(** X14: the text [trim_response] gives has at most 4006 characters and at
    most 5 more than the text it was given (a text of 4001 characters
    grows), and trimming a second time changes nothing. *)
Theorem trim_response_bounded_idempotent (s : str) :
  List.length (trim_response s) <= 4006
  /\ List.length (trim_response s) <= List.length s + 5
  /\ trim_response (trim_response s) = trim_response s.
Proof.
  split; [apply trim_response_length_le |].
  unfold trim_response, PyStr.upto.
  destruct (Nat.ltb 4000 (List.length s)) eqn:Hlong.
  - apply Nat.ltb_lt in Hlong.
    assert (Hcut : List.length (firstn 3990 s) = 3990)
      by (apply firstn_length_le; lia).
    assert (Hlen : List.length (firstn 3990 s ++ truncation_suffix) = 4006)
      by (rewrite length_app, Hcut, truncation_suffix_length; reflexivity).
    split; [lia |].
    rewrite Hlen.
    replace (Nat.ltb 4000 4006) with true by reflexivity.
    rewrite firstn_app, Hcut, Nat.sub_diag, firstn_O, app_nil_r.
    now rewrite firstn_firstn, Nat.min_id.
  - split; [lia |]. now rewrite Hlong.
Qed.

(** ** More on the generation client *)

Lemma json_dumps_dict_nonempty (env : Env) (fields : list (str * json)) :
  PyStr.upto 1900 (json_dumps env (JDict fields)) <> [].
Proof. cbn. discriminate. Qed.

Lemma upto_nil (n : nat) (s : str) : PyStr.upto (S n) s = [] -> s = [].
Proof. destruct s; [reflexivity | discriminate]. Qed.

(** X15: the text taken from a parsed response is either a non-empty
    string value of the document, returned whole whatever its length (only
    for an object), or has at most 1900 characters. *)
Theorem response_text_found_or_bounded (env : Env) (data : json) :
  (is_dict data = true
   /\ In (response_text_of env data) (strings_dfs data)
   /\ response_text_of env data <> []
   /\ find_text data = Some (response_text_of env data))
  \/ List.length (response_text_of env data) <= 1900.
Proof.
  unfold response_text_of.
  destruct (is_dict data) eqn:Hdict.
  2:{ right. apply firstn_le_length. }
  destruct data as [ | | | | | | fields ]; try discriminate.
  assert (Heq : find_text (JDict fields)
                = hd_error (filter PyStr.nonempty
                              (strings_dfs (JDict fields))))
    by apply find_text_dict.
  destruct (find_text (JDict fields)) as [s |] eqn:Hfind.
  - symmetry in Heq. apply hd_filter_some in Heq as [Hin Hne].
    left. cbn [or_else]. rewrite Hne. repeat split; try assumption.
    destruct s; discriminate.
  - right. apply firstn_le_length.
Qed.

(** X16: the generation client hands back the empty string in one case
    only: the backend answered, the status check passed, and the body is
    the bare JSON string of length 0.  Every error string and every other
    document gives a non-empty text. *)
Theorem call_gemini_empty_iff (env : Env) (prompt_text : str) :
  (forall f, float_repr env f <> []) ->
  fst (run (call_gemini env prompt_text)) = Ret []
  <-> exists r,
        requests_post env (gemini_request env prompt_text) = Ret r
        /\ raise_for_status r = Ret tt
        /\ resp_json r = Ret (JStr []).
Proof.
  intros Hfloat. unfold run. rewrite call_gemini_run. cbn [fst].
  unfold generation_result. split.
  - destruct (requests_post env (gemini_request env prompt_text))
      as [r | e]; [| discriminate].
    destruct (raise_for_status r) as [[] | e] eqn:Hstatus; [| discriminate].
    destruct (resp_json r) as [data | e] eqn:Hbody; [| discriminate].
    intros Hempty. injection Hempty as Hempty.
    exists r. split; [reflexivity |]. split; [assumption |].
    rewrite Hbody. f_equal.
    unfold response_text_of in Hempty.
    destruct data as [ | [|] | z | f | s | items | fields ];
      cbn [is_dict] in Hempty; try (apply upto_nil in Hempty);
      try discriminate.
    + now apply int_repr_nonempty in Hempty.
    + now apply Hfloat in Hempty.
    + cbn in Hempty. now subst.
    + exfalso. unfold or_else in Hempty.
      destruct (find_text (JDict fields)) as [[| c s] |];
        try discriminate;
        now apply json_dumps_dict_nonempty in Hempty.
  - intros (r & -> & -> & ->). reflexivity.
Qed.

Lemma call_gemini_empty_iff_witness :
  fst (run (call_gemini (Demo.online (JStr [])) (lit "hi"))) = Ret [].
Proof.
  apply (call_gemini_empty_iff (Demo.online (JStr [])) (lit "hi")).
  - intros f. destruct f as [[|] | [|] | | ]; discriminate.
  - exists (Demo.response (JStr [])). repeat split.
Defined.

(** ** More on the prompt *)

(** X18: the prompt wraps the text between the two fixed parts of the
    template and adds 49 characters, so it is never empty, and the text can
    be read back from it: different texts give different prompts. *)
Theorem build_prompt_injective (env : Env) (t t' : str) :
  List.length (build_prompt env (JStr t)) = List.length t + 49
  /\ (build_prompt env (JStr t) = build_prompt env (JStr t') -> t = t').
Proof.
  unfold build_prompt. cbn [py_str]. split.
  - rewrite !length_app.
    change (List.length (lit "User asked: ")) with 12.
    change (List.length (lit "Provide a short helpful explanation."))
      with 36.
    cbn [List.length]. lia.
  - intros Heq. apply app_inv_head in Heq.
    now apply app_inv_tail in Heq.
Qed.

Lemma build_prompt_injective_witness :
  lit "What is gravity?" = lit "What is gravity?".
Proof.
  exact (proj2 (build_prompt_injective Demo.offline (lit "What is gravity?")
                  (lit "What is gravity?")) eq_refl).
Defined.

(** ** The registration route *)

Lemma lstrip_slash_spec (s : str) :
  (exists k, s = repeat 47%N k ++ lstrip_slash s)
  /\ (forall rest, lstrip_slash s <> 47%N :: rest).
Proof.
  induction s as [| c s [[k Hk] Hhead]].
  - split; [now exists 0 | discriminate].
  - cbn [lstrip_slash]. destruct (c =? 47)%N eqn:Hc.
    + apply N.eqb_eq in Hc as ->. split; [| exact Hhead].
      exists (S k). cbn [repeat app]. now rewrite <- Hk.
    + split; [now exists 0 |].
      intros rest Heq. injection Heq as -> _.
      now rewrite N.eqb_refl in Hc.
Qed.

Lemma rstrip_slash_spec (s : str) :
  (exists k, s = rstrip_slash s ++ repeat 47%N k)
  /\ (forall before, rstrip_slash s <> before ++ [47%N]).
Proof.
  unfold rstrip_slash.
  destruct (lstrip_slash_spec (rev s)) as [[k Hk] Hhead]. split.
  - exists k. apply (f_equal (@rev _)) in Hk.
    now rewrite rev_involutive, rev_app_distr, rev_repeat in Hk.
  - intros before Heq. apply (f_equal (@rev _)) in Heq.
    rewrite rev_involutive, rev_unit in Heq. now apply Hhead in Heq.
Qed.

(** X19: the URL that [set_webhook] registers ends with the path on
    which [telegram_webhook] is routed.  A [RENDER_EXTERNAL_URL] that is
    set and not empty is its base as it stands, a trailing slash included;
    otherwise the base is the host URL of the request without any of its
    trailing slashes. *)
Theorem webhook_url_shape
    (secret_path : str) (RENDER_EXTERNAL_URL : option str) (host_url : str) :
  (forall u, RENDER_EXTERNAL_URL = Some u -> u <> [] ->
             webhook_url_of secret_path RENDER_EXTERNAL_URL host_url
             = u ++ webhook_route secret_path)
  /\ (RENDER_EXTERNAL_URL = None \/ RENDER_EXTERNAL_URL = Some [] ->
      exists base k,
        host_url = base ++ repeat 47%N k
        /\ (forall before, base <> before ++ [47%N])
        /\ webhook_url_of secret_path RENDER_EXTERNAL_URL host_url
           = base ++ webhook_route secret_path).
Proof.
  unfold webhook_url_of, render_url_of, webhook_route. split.
  - intros u -> Hu. destruct u; [contradiction | reflexivity].
  - intros Hunset.
    destruct (rstrip_slash_spec host_url) as [[k Hk] Hlast].
    exists (rstrip_slash host_url), k.
    repeat split; try assumption.
    destruct Hunset as [-> | ->]; reflexivity.
Qed.

Lemma webhook_url_shape_witness :
  webhook_url_of (lit "sk") (Some (lit "https://bot.example/")) (lit "http://h/")
  = lit "https://bot.example//telegram/sk"
  /\ exists base k,
       lit "http://h//" = base ++ repeat 47%N k
       /\ (forall before, base <> before ++ [47%N])
       /\ webhook_url_of (lit "sk") None (lit "http://h//")
          = base ++ webhook_route (lit "sk").
Proof.
  split.
  - refine (proj1 (webhook_url_shape (lit "sk")
                     (Some (lit "https://bot.example/")) (lit "http://h/"))
              (lit "https://bot.example/") eq_refl _).
    discriminate.
  - exact (proj2 (webhook_url_shape (lit "sk") None (lit "http://h//"))
             (or_introl eq_refl)).
Defined.

(** X20: [set_webhook] makes exactly one outbound call, the POST of the
    webhook URL to Telegram's [setWebhook], whatever happens.  Nothing is
    caught: what the POST raises, or what parsing the body of its response
    raises, leaves the route.  When the body parses, the route returns it
    with status 200 next to the URL, whatever the status of Telegram's
    response. *)
Theorem set_webhook_one_post
    (env : Env) (secret_path : str) (RENDER_EXTERNAL_URL : option str)
    (host_url : str) :
  let url := webhook_url_of secret_path RENDER_EXTERNAL_URL host_url in
  let res := run (set_webhook env secret_path RENDER_EXTERNAL_URL host_url) in
  snd res = [set_webhook_request env url]
  /\ req_json (set_webhook_request env url) = JDict [ (lit "url", JStr url) ]
  /\ (forall e,
         requests_post env (set_webhook_request env url) = Raise e ->
         fst res = Raise e)
  /\ (forall r e,
         requests_post env (set_webhook_request env url) = Ret r ->
         resp_json r = Raise e ->
         fst res = Raise e)
  /\ (forall r data,
         requests_post env (set_webhook_request env url) = Ret r ->
         resp_json r = Ret data ->
         fst res
         = Ret {| resp_body := JDict [ (lit "webhook_url", JStr url);
                                       (lit "telegram_response", data) ];
                  resp_status := 200 |}).
Proof.
  cbv zeta. unfold run, set_webhook, bind, post, lift, ret.
  destruct (requests_post env _) as [r | e] eqn:Hpost.
  - destruct (resp_json r) as [data | e] eqn:Hbody;
      repeat split; try discriminate.
    + intros r' e' [= <-]. congruence.
    + intros r' data' [= <-]. rewrite Hbody. now intros [= <-].
    + intros r' e' [= <-]. rewrite Hbody. now intros [= <-].
    + intros r' data' [= <-]. congruence.
  - repeat split; try discriminate. now intros e' [= <-].
Qed.

Lemma set_webhook_one_post_witness :
  fst (run (set_webhook Demo.offline (lit "sk") None (lit "http://h/")))
  = Raise (Exn "ConnectionError" (lit "connection refused"))
  /\ fst (run (set_webhook (Demo.online (JDict [ (lit "ok", JBool true) ]))
                 (lit "sk") None (lit "http://h/")))
     = Ret {| resp_body :=
                JDict [ (lit "webhook_url", JStr (lit "http://h/telegram/sk"));
                        (lit "telegram_response",
                         JDict [ (lit "ok", JBool true) ]) ];
              resp_status := 200 |}.
Proof.
  split.
  - exact (proj1 (proj2 (proj2
             (set_webhook_one_post Demo.offline (lit "sk") None
                (lit "http://h/"))))
             _ eq_refl).
  - exact (proj2 (proj2 (proj2 (proj2
             (set_webhook_one_post
                (Demo.online (JDict [ (lit "ok", JBool true) ]))
                (lit "sk") None (lit "http://h/")))))
             (Demo.response (JDict [ (lit "ok", JBool true) ])) _
             eq_refl eq_refl).
Defined.

(** ** The command test *)

Lemma startswith_prefix (s p : str) :
  PyStr.startswith s p = true <-> exists rest, s = p ++ rest.
Proof.
  revert s. induction p as [| c p IH]; intros s.
  - destruct s; cbn; split; eauto.
  - destruct s as [| d s]; cbn.
    + split; [discriminate | intros [rest Heq]; discriminate].
    + rewrite andb_true_iff, N.eqb_eq, IH. split.
      * intros [-> [rest ->]]. now exists rest.
      * intros [rest [= -> ->]]. eauto.
Qed.

(** X22: the command test is a prefix test on the text.  On a message
    with a chat id whose text is a string, the handler's outbound calls are
    the single send of the greeting exactly when the text is [/start]
    followed by anything at all; a longer word that begins with [/start]
    is greeted too, and no such text ever reaches the generation
    backend. *)
Theorem telegram_webhook_greets_iff_prefix
    (env : Env) (fields mf : list (str * json)) (chat chat_id : json)
    (t : str) :
  selected_message fields = JDict mf ->
  dict_lookup (lit "chat") mf = Some chat ->
  py_getitem chat (lit "id") = Ret chat_id ->
  dict_lookup (lit "text") mf = Some (JStr t) ->
  snd (run (telegram_webhook env (Some (JDict fields))))
  = [send_request env chat_id greeting JNull]
  <-> exists rest, t = lit "/start" ++ rest.
Proof.
  intros Hsel Hchat Hid Htext.
  assert (Hget : py_get (JDict mf) (lit "text") (JStr []) = Ret (JStr t))
    by (cbn [py_get]; now rewrite Htext).
  pose (mid := match dict_lookup (lit "message_id") mf with
               | Some v => v
               | None => JNull
               end).
  assert (Hmid : py_get (JDict mf) (lit "message_id") JNull = Ret mid)
    by reflexivity.
  rewrite <- startswith_prefix. unfold run.
  destruct (PyStr.startswith t (lit "/start")) eqn:Hstart.
  - rewrite (telegram_webhook_start env fields mf chat chat_id (JStr t) mid
               [] Hsel Hchat Hid Hget Hmid t eq_refl Hstart).
    split; reflexivity.
  - split; [| discriminate]. intros Hlog. exfalso.
    destruct (PyStr.nonempty t) eqn:Hne.
    + rewrite (telegram_webhook_question env fields mf chat chat_id (JStr t)
                 mid [] Hsel Hchat Hid Hget Hmid t eq_refl Hne Hstart)
        in Hlog.
      discriminate.
    + rewrite (telegram_webhook_no_text env fields mf chat chat_id (JStr t)
                 mid [] Hsel Hchat Hid Hget Hmid Hne) in Hlog.
      cbn [snd app] in Hlog. injection Hlog. intros. discriminate.
Qed.

Lemma telegram_webhook_greets_iff_prefix_witness :
  snd (run (telegram_webhook (Demo.online Demo.answer)
              (Some (Demo.message_event (lit "/startle me")))))
  = [send_request (Demo.online Demo.answer) (JInt 42) greeting JNull].
Proof.
  apply (telegram_webhook_greets_iff_prefix (Demo.online Demo.answer)
           (Demo.event_fields (lit "/startle me"))
           (Demo.message_fields (lit "/startle me"))
           (JDict [ (lit "id", JInt 42) ]) (JInt 42) (lit "/startle me")
           eq_refl eq_refl eq_refl eq_refl).
  exists (lit "le me"). reflexivity.
Defined.
